(** * Krio API integrations: a shallow embedding of the HubSpot, Zendesk and
    Google Play connectors and of the SQLite store they write to.

    Python values decoded from vendor JSON are modelled by [json]; a
    [dict] is an association list (JSON objects have unique keys, so the
    first binding is the one [dict] lookups see).  A raised exception is
    [None] in the [option] monad.  Numbers are integers: the fields the
    connectors read are ids, counts and strings, never floats. *)

From Stdlib Require Import List String Ascii ZArith Bool Lia Permutation.
Import ListNotations.
Set Warnings "-register-all".
Open Scope list_scope.
Open Scope string_scope.

(** ** JSON and the Python operations the connectors use on it *)

Inductive json : Type :=
| JNull
| JBool (b : bool)
| JNum (z : Z)
| JStr (s : string)
| JList (xs : list json)
| JObj (kvs : list (string * json)).

Notation "'let*' x ':=' m 'in' f" :=
  (match m with Some x => f | None => None end)
  (at level 200, x name, m at level 100, f at level 200).

Fixpoint assoc {A} (k : string) (kvs : list (string * A)) : option A :=
  match kvs with
  | [] => None
  | (k', v) :: r => if String.eqb k k' then Some v else assoc k r
  end.

(** [o.get(k, d)]: an [AttributeError] unless [o] is a dict. *)
Definition py_get (o : json) (k : string) (d : json) : option json :=
  match o with
  | JObj kvs => Some (match assoc k kvs with Some v => v | None => d end)
  | _ => None
  end.

(** [o[k]] with a string key: [KeyError] or [TypeError] on failure. *)
Definition py_getitem (o : json) (k : string) : option json :=
  match o with
  | JObj kvs => assoc k kvs
  | _ => None
  end.

(** [o.items()] *)
Definition py_items (o : json) : option (list (string * json)) :=
  match o with
  | JObj kvs => Some kvs
  | _ => None
  end.

Definition str_mem (k : string) (l : list string) : bool :=
  existsb (String.eqb k) l.

(** [{k: v for k, v in items if k not in excl}] *)
Definition py_filter_keys {A} (excl : list string) (kvs : list (string * A))
  : list (string * A) :=
  filter (fun kv => negb (str_mem (fst kv) excl)) kvs.

(** [d[k] = v] on a dict: replaces the binding in place, or appends it. *)
Definition py_setitem {A} (kvs : list (string * A)) (k : string) (v : A)
  : list (string * A) :=
  if existsb (fun kv => String.eqb (fst kv) k) kvs
  then map (fun kv => if String.eqb (fst kv) k then (k, v) else kv) kvs
  else app kvs [(k, v)].

(** Python truthiness. *)
Definition truthy (j : json) : bool :=
  match j with
  | JNull => false
  | JBool b => b
  | JNum z => negb (Z.eqb z 0)
  | JStr s => negb (String.eqb s "")
  | JList xs => match xs with [] => false | _ => true end
  | JObj kvs => match kvs with [] => false | _ => true end
  end.

(** [for x in v]: a list yields its items, a dict its keys, a string its
    characters; anything else is a [TypeError]. *)
Fixpoint chars_of (s : string) : list json :=
  match s with
  | EmptyString => []
  | String c s' => JStr (String c EmptyString) :: chars_of s'
  end.

Definition py_iter (j : json) : option (list json) :=
  match j with
  | JList xs => Some xs
  | JObj kvs => Some (map (fun kv => JStr (fst kv)) kvs)
  | JStr s => Some (chars_of s)
  | _ => None
  end.

(** [v[0]] *)
Definition py_index0 (j : json) : option json :=
  match j with
  | JList (x :: _) => Some x
  | JStr (String c _) => Some (JStr (String c EmptyString))
  | _ => None
  end.

Fixpoint map_opt {A B} (f : A -> option B) (l : list A) : option (list B) :=
  match l with
  | [] => Some []
  | x :: r => let* y := f x in let* ys := map_opt f r in Some (y :: ys)
  end.

(** *** [str()] of a decoded JSON value *)

Fixpoint digits_go (fuel : nat) (n : Z) (acc : string) : string :=
  match fuel with
  | O => acc
  | S f =>
      let acc' := String (ascii_of_nat (48 + Z.to_nat (n mod 10))) acc in
      if Z.eqb (n / 10) 0 then acc' else digits_go f (n / 10) acc'
  end.

Definition z_to_dec (z : Z) : string :=
  let fuel := S (Z.to_nat (Z.log2 (Z.abs z))) in
  if Z.ltb z 0 then "-" ++ digits_go fuel (Z.abs z) ""
  else digits_go fuel z "".

Fixpoint has_char (c : ascii) (s : string) : bool :=
  match s with
  | EmptyString => false
  | String d s' => Ascii.eqb c d || has_char c s'
  end.

Definition hex_digit (n : nat) : ascii :=
  ascii_of_nat (if Nat.ltb n 10 then 48 + n else 87 + n).

(** One character of a str's [repr] quoted with [q]: the backslash and the
    quote are escaped, tab, newline and carriage return as [\t], [\n],
    [\r], the other characters Python does not print ([\x00]-[\x1f],
    [\x7f]-[\xa0], [\xad]) as [\xhh]. *)
Definition repr_char (q c : ascii) : string :=
  let n := nat_of_ascii c in
  if Ascii.eqb c "\" || Ascii.eqb c q then String "\" (String c EmptyString)
  else if Nat.eqb n 9 then String "\" (String "t" EmptyString)
  else if Nat.eqb n 10 then String "\" (String "n" EmptyString)
  else if Nat.eqb n 13 then String "\" (String "r" EmptyString)
  else if Nat.ltb n 32 || (Nat.leb 127 n && Nat.leb n 160) || Nat.eqb n 173
  then String "\" (String "x" (String (hex_digit (n / 16)) (String (hex_digit (n mod 16)) EmptyString)))
  else String c EmptyString.

Fixpoint escape_with (q : ascii) (s : string) : string :=
  match s with
  | EmptyString => EmptyString
  | String c s' => repr_char q c ++ escape_with q s'
  end.

(** [repr] of a str: single quotes unless the text holds a single quote
    and no double quote. *)
Definition py_quote (s : string) : string :=
  let dq := ascii_of_nat 34 in
  if has_char "'" s && negb (has_char dq s)
  then String dq (escape_with dq s ++ String dq EmptyString)
  else "'" ++ escape_with "'" s ++ "'".

Fixpoint join (sep : string) (l : list string) : string :=
  match l with
  | [] => ""
  | [x] => x
  | x :: r => x ++ sep ++ join sep r
  end.

Fixpoint py_repr (j : json) : string :=
  match j with
  | JNull => "None"
  | JBool true => "True"
  | JBool false => "False"
  | JNum z => z_to_dec z
  | JStr s => py_quote s
  | JList xs => "[" ++ join ", " (map py_repr xs) ++ "]"
  | JObj kvs =>
      "{" ++ join ", " (map (fun kv => py_quote (fst kv) ++ ": " ++ py_repr (snd kv)) kvs)
      ++ "}"
  end.

Definition py_str (j : json) : string :=
  match j with
  | JStr s => s
  | _ => py_repr j
  end.

(** *** [str.strip()], [str.lower()], [str.split(sep)]

    A [string] stands for a Python str whose characters are the code points
    below 256 (Latin-1). *)

(** [str.isspace] on those characters: [\t]-[\r], [\x1c]-[\x1f], the
    space, [\x85] and [\xa0]. *)
Definition is_space (c : ascii) : bool :=
  let n := nat_of_ascii c in
  Nat.eqb n 32 || (Nat.leb 9 n && Nat.leb n 13) || (Nat.leb 28 n && Nat.leb n 31)
  || Nat.eqb n 133 || Nat.eqb n 160.

Fixpoint lstrip (s : string) : string :=
  match s with
  | String c s' => if is_space c then lstrip s' else s
  | EmptyString => EmptyString
  end.

Fixpoint rev_str (s : string) (acc : string) : string :=
  match s with
  | EmptyString => acc
  | String c s' => rev_str s' (String c acc)
  end.

Definition py_strip (s : string) : string :=
  rev_str (lstrip (rev_str (lstrip s) EmptyString)) EmptyString.

(** [str.lower] on one character: A-Z and the Latin-1 capitals
    [\xc0]-[\xde] but [\xd7]. *)
Definition lower_char (c : ascii) : ascii :=
  let n := nat_of_ascii c in
  if (Nat.leb 65 n && Nat.leb n 90) || (Nat.leb 192 n && Nat.leb n 222 && negb (Nat.eqb n 215))
  then ascii_of_nat (n + 32) else c.

Fixpoint py_lower (s : string) : string :=
  match s with
  | EmptyString => EmptyString
  | String c s' => String (lower_char c) (py_lower s')
  end.

Fixpoint starts_with (p s : string) : bool :=
  match p, s with
  | EmptyString, _ => true
  | String a p', String b s' => Ascii.eqb a b && starts_with p' s'
  | _, _ => false
  end.

Fixpoint split_go (fuel : nat) (sep s cur : string) : list string :=
  match fuel with
  | O => [cur ++ s]
  | S f =>
      match s with
      | EmptyString => [cur]
      | String c s' =>
          if starts_with sep s
          then cur :: split_go f sep (substring (String.length sep) (String.length s) s) ""
          else split_go f sep s' (cur ++ String c EmptyString)
      end
  end.

(** [s.split(sep)] for a non-empty [sep] (all separators used are literals). *)
Definition py_split (sep s : string) : list string :=
  split_go (S (String.length s)) sep s "".

(** ** Canonical records produced by the connectors

    A canonical record is a Python dict whose values are decoded JSON, except
    [json_payload], which holds [json.dumps(payload)]: a [str] whose
    [json.loads] gives [payload] back.  [PDumped j] is that string. *)

Inductive pyval : Type :=
| PJ (j : json)
| PDumped (j : json).

Definition pyobj := list (string * pyval).

Definition pstr (x : string) : pyval := PJ (JStr x).

(** ** HubSpot normalizers ([src/hubspot/hubspot_api.py]) *)

Definition hs_top_excl : list string := ["id"; "properties"; "createdAt"; "updatedAt"].

Definition contact_props : list string :=
  ["firstname"; "lastname"; "email"; "createdate"; "lastmodifieddate"; "lifecyclestage"].

(** The loop body of [HubSpotClient.fetch_contacts]. *)
Definition normalize_contact (contact : json) : option pyobj :=
  let* props := py_get contact "properties" (JObj []) in
  let* items := py_items contact in
  let payload := py_filter_keys hs_top_excl items in
  let* pitems := py_items props in
  let payload := py_setitem payload "properties" (JObj (py_filter_keys contact_props pitems)) in
  let* id := py_getitem contact "id" in
  let* fn := py_get props "firstname" (JStr "") in
  let* ln := py_get props "lastname" (JStr "") in
  let* email := py_get props "email" (JStr "") in
  let* cd := py_get props "createdate" (JStr "") in
  let* lm := py_get props "lastmodifieddate" (JStr "") in
  Some [("id", PJ id); ("type", pstr "contact");
        ("name", pstr (py_strip (py_str fn ++ " " ++ py_str ln)));
        ("email", PJ email); ("created_at", PJ cd); ("updated_at", PJ lm);
        ("source", pstr "hubspot"); ("json_payload", PDumped (JObj payload))].

Definition company_props : list string := ["name"; "domain"; "createdate"; "lastmodifieddate"].

(** The loop body of [HubSpotClient.fetch_companies]. *)
Definition normalize_company (company : json) : option pyobj :=
  let* props := py_get company "properties" (JObj []) in
  let* items := py_items company in
  let payload := py_filter_keys hs_top_excl items in
  let* pitems := py_items props in
  let payload := py_setitem payload "properties" (JObj (py_filter_keys company_props pitems)) in
  let* id := py_getitem company "id" in
  let* nm := py_get props "name" (JStr "") in
  let* dom := py_get props "domain" (JStr "") in
  let* cd := py_get props "createdate" (JStr "") in
  let* lm := py_get props "lastmodifieddate" (JStr "") in
  Some [("id", PJ id); ("type", pstr "company"); ("name", PJ nm); ("domain", PJ dom);
        ("created_at", PJ cd); ("updated_at", PJ lm);
        ("source", pstr "hubspot"); ("json_payload", PDumped (JObj payload))].

Definition deal_props : list string :=
  ["dealname"; "amount"; "dealstage"; "createdate"; "lastmodifieddate"].

(** The loop body of [HubSpotClient.fetch_deals]. *)
Definition normalize_deal (deal : json) : option pyobj :=
  let* props := py_get deal "properties" (JObj []) in
  let* items := py_items deal in
  let payload := py_filter_keys hs_top_excl items in
  let* pitems := py_items props in
  let payload := py_setitem payload "properties" (JObj (py_filter_keys deal_props pitems)) in
  let* id := py_getitem deal "id" in
  let* nm := py_get props "dealname" (JStr "") in
  let* st := py_get props "dealstage" (JStr "") in
  let* am := py_get props "amount" (JStr "") in
  let* cd := py_get props "createdate" (JStr "") in
  let* lm := py_get props "lastmodifieddate" (JStr "") in
  Some [("id", PJ id); ("type", pstr "deal"); ("name", PJ nm); ("status", PJ st);
        ("amount", PJ am); ("created_at", PJ cd); ("updated_at", PJ lm);
        ("source", pstr "hubspot"); ("json_payload", PDumped (JObj payload))].

(** ** Zendesk normalizers ([src/zendesk/zendesk_api.py]) *)

Definition ticket_excl : list string := ["id"; "subject"; "status"; "created_at"; "updated_at"].

(** The loop body of [ZendeskClient.fetch_tickets]. *)
Definition normalize_ticket (ticket : json) : option pyobj :=
  let* items := py_items ticket in
  let payload := py_filter_keys ticket_excl items in
  let* id := py_getitem ticket "id" in
  let* subj := py_get ticket "subject" (JStr "") in
  let* st := py_get ticket "status" (JStr "") in
  let* ca := py_get ticket "created_at" (JStr "") in
  let* ua := py_get ticket "updated_at" (JStr "") in
  Some [("id", PJ id); ("type", pstr "ticket"); ("name", PJ subj); ("status", PJ st);
        ("created_at", PJ ca); ("updated_at", PJ ua);
        ("source", pstr "zendesk"); ("json_payload", PDumped (JObj payload))].

Definition comment_excl : list string :=
  ["id"; "ticket_id"; "author_id"; "body"; "created_at"; "public"].

(** The loop body of [ZendeskClient.fetch_comments ticket_id]. *)
Definition normalize_comment (ticket_id : json) (comment : json) : option pyobj :=
  let* items := py_items comment in
  let payload := py_filter_keys comment_excl items in
  let* id := py_getitem comment "id" in
  let* author := py_getitem comment "author_id" in
  let* body := py_get comment "body" (JStr "") in
  let* ca := py_get comment "created_at" (JStr "") in
  let* pub := py_get comment "public" (JBool true) in
  Some [("id", PJ id); ("entity_type", pstr "ticket"); ("entity_id", PJ ticket_id);
        ("author_id", PJ author); ("body", PJ body); ("created_at", PJ ca);
        ("is_public", PJ pub); ("source", pstr "zendesk");
        ("json_payload", PDumped (JObj payload))].

Definition user_excl : list string := ["id"; "name"; "email"; "role"; "created_at"; "updated_at"].

(** [ZendeskClient.fetch_user] after the request: [data] is the decoded
    response of [users/{user_id}.json]. *)
Definition normalize_user (data : json) : option pyobj :=
  let* user := py_get data "user" (JObj []) in
  let* items := py_items user in
  let payload := py_filter_keys user_excl items in
  let* id := py_get user "id" JNull in
  let* nm := py_get user "name" (JStr "") in
  let* em := py_get user "email" (JStr "") in
  let* rl := py_get user "role" (JStr "") in
  let* ca := py_get user "created_at" (JStr "") in
  let* ua := py_get user "updated_at" (JStr "") in
  Some [("id", PJ id); ("type", pstr "user"); ("name", PJ nm); ("email", PJ em);
        ("role", PJ rl); ("created_at", PJ ca); ("updated_at", PJ ua);
        ("source", pstr "zendesk"); ("json_payload", PDumped (JObj payload))].

(** ** Google Play normalizer ([src/google_play/google_play_api.py]) *)

Definition review_excl : list string := ["reviewId"; "comments"].
Definition user_comment_excl : list string := ["text"; "starRating"; "lastModified"].

(** The loop body of [GooglePlayClient.fetch_reviews]; [now] is the
    fetch-time stamp [time.strftime("%Y-%m-%dT%H:%M:%SZ", time.gmtime())]. *)
Definition normalize_review (package_name now : string) (review : json) : option pyobj :=
  let* cs := py_get review "comments" (JList [JObj []]) in
  let* c0 := py_index0 cs in
  let* comment := py_get c0 "userComment" (JObj []) in
  let* items := py_items review in
  let payload := py_filter_keys review_excl items in
  let* citems := py_items comment in
  let payload := py_setitem payload "userComment" (JObj (py_filter_keys user_comment_excl citems)) in
  let* id := py_get review "reviewId" JNull in
  let* rating := py_get comment "starRating" (JStr "") in
  let* text := py_get comment "text" (JStr "") in
  Some [("id", PJ id); ("type", pstr "review"); ("package_name", pstr package_name);
        ("rating", pstr (py_str rating)); ("comment", PJ text); ("created_at", pstr now);
        ("source", pstr "google_play"); ("json_payload", PDumped (JObj payload))].

(** ** Paged fetches against a stub transport

    A test stub answers each [_make_request] with the next decoded body of a
    fixed sequence of pages, whatever the parameters; a request once the
    sequence is used up fails.  The rate-limit sleep of [_handle_rate_limit]
    changes no data and is left out here (it is modelled below).  Each loop
    returns the records, the pages left unconsumed, and the cursor parameter
    of every request it sent. *)

(** [paging = data.get("paging")]; [None] means the loop body raised,
    [Some None] that it breaks, [Some (Some a)] that it continues with
    [after = paging["next"]["after"]]. *)
Definition hs_next (data : json) : option (option json) :=
  let* paging := py_get data "paging" JNull in
  if negb (truthy paging) then Some None else
  let* nx := py_get paging "next" JNull in
  if negb (truthy nx) then Some None else
  let* nx' := py_getitem paging "next" in
  let* a := py_getitem nx' "after" in
  Some (Some a).

Definition hs_page (norm : json -> option pyobj) (data : json) : option (list pyobj) :=
  let* results := py_get data "results" (JList []) in
  let* recs := py_iter results in
  map_opt norm recs.

(** The [while True] loop shared by [fetch_contacts], [fetch_companies] and
    [fetch_deals]; the request carries [after] only when it is truthy. *)
Fixpoint hs_paged (norm : json -> option pyobj) (after : json) (pages : list json)
  : option (list pyobj * list json * list (option json)) :=
  match pages with
  | [] => None
  | data :: rest =>
      let req := if truthy after then Some after else None in
      let* recs := hs_page norm data in
      let* nx := hs_next data in
      match nx with
      | None => Some (recs, rest, [req])
      | Some a =>
          let* r := hs_paged norm a rest in
          let '(recs', rest', reqs) := r in
          Some (app recs recs', rest', req :: reqs)
      end
  end.

Definition fetch_contacts (pages : list json) := hs_paged normalize_contact JNull pages.
Definition fetch_companies (pages : list json) := hs_paged normalize_company JNull pages.
Definition fetch_deals (pages : list json) := hs_paged normalize_deal JNull pages.

(** [next_page = data.get("next_page")] and
    [params["page"] = next_page.split("page=")[1].split("&")[0]]. *)
Definition zd_next (data : json) : option (option string) :=
  let* np := py_get data "next_page" JNull in
  if negb (truthy np) then Some None else
  match np with
  | JStr url =>
      let* seg := nth_error (py_split "page=" url) 1 in
      let* pg := nth_error (py_split "&" seg) 0 in
      Some (Some pg)
  | _ => None
  end.

(** The loop of [ZendeskClient.fetch_tickets]; [page] is [params.get("page")]. *)
Fixpoint zd_paged (page : option string) (pages : list json)
  : option (list pyobj * list json * list (option string)) :=
  match pages with
  | [] => None
  | data :: rest =>
      let* recs := hs_page normalize_ticket data in
      let* nx := zd_next data in
      match nx with
      | None => Some (recs, rest, [page])
      | Some p =>
          let* r := zd_paged (Some p) rest in
          let '(recs', rest', reqs) := r in
          Some (app recs recs', rest', page :: reqs)
      end
  end.

Definition fetch_tickets (pages : list json) := zd_paged None pages.

(** ** [HubSpotClient.fetch_leads] *)

(** [json.loads] of a value produced by [json.dumps]; anything else is not
    a [str] built by the connectors and is refused. *)
Definition py_loads (v : pyval) : option json :=
  match v with
  | PDumped j => Some j
  | PJ _ => None
  end.

(** [v.get(k, d)] on a record value: a [str] has no [get]. *)
Definition pyval_get (v : pyval) (k : string) (d : json) : option json :=
  match v with
  | PJ j => py_get j k d
  | PDumped _ => None
  end.

Definition pyobj_item (o : pyobj) (k : string) : option pyval := assoc k o.

(** The comprehension's condition
    [json.loads(contact["json_payload"]).get("properties", {}).get("lifecyclestage", "").lower() == "lead"]. *)
Definition lead_cond (contact : pyobj) : option bool :=
  let* jp := pyobj_item contact "json_payload" in
  let* j := py_loads jp in
  let* props := py_get j "properties" (JObj []) in
  let* ls := py_get props "lifecyclestage" (JStr "") in
  match ls with
  | JStr x => Some (String.eqb (py_lower x) "lead")
  | _ => None
  end.

(** The comprehension's element. *)
Definition lead_elem (contact : pyobj) : option pyobj :=
  let* id := pyobj_item contact "id" in
  let* jp := pyobj_item contact "json_payload" in
  let* props := pyval_get jp "properties" (JObj []) in
  let* ls := py_get props "lifecyclestage" (JStr "") in
  Some [("parent_type", pstr "contact"); ("parent_id", id); ("child_type", pstr "lead");
        ("child_id", id); ("relationship_type", pstr "lead_status");
        ("json_payload", PDumped (JObj [("lifecyclestage", ls)]))].

Fixpoint leads_of (contacts : list pyobj) : option (list pyobj) :=
  match contacts with
  | [] => Some []
  | c :: r =>
      let* b := lead_cond c in
      if b then let* e := lead_elem c in let* es := leads_of r in Some (e :: es)
      else leads_of r
  end.

Definition fetch_leads (pages : list json) : option (list pyobj) :=
  let* r := fetch_contacts pages in
  let '(contacts, _, _) := r in
  leads_of contacts.

(** ** The store *)

Fixpoint json_eqb (a b : json) : bool :=
  match a, b with
  | JNull, JNull => true
  | JBool x, JBool y => Bool.eqb x y
  | JNum x, JNum y => Z.eqb x y
  | JStr x, JStr y => String.eqb x y
  | JList xs, JList ys =>
      (fix go (xs ys : list json) : bool :=
         match xs, ys with
         | [], [] => true
         | x :: xs', y :: ys' => json_eqb x y && go xs' ys'
         | _, _ => false
         end) xs ys
  | JObj xs, JObj ys =>
      (fix go (xs ys : list (string * json)) : bool :=
         match xs, ys with
         | [], [] => true
         | (k1, x) :: xs', (k2, y) :: ys' => String.eqb k1 k2 && json_eqb x y && go xs' ys'
         | _, _ => false
         end) xs ys
  | _, _ => false
  end.

Definition pyval_eqb (a b : pyval) : bool :=
  match a, b with
  | PJ x, PJ y => json_eqb x y
  | PDumped x, PDumped y => json_eqb x y
  | _, _ => false
  end.

(** [INSERT OR REPLACE]: the rows clashing with [row] on the primary key
    are deleted, then [row] is inserted. *)
Definition upsert {R} (same_key : R -> R -> bool) (row : R) (tbl : list R) : list R :=
  app (filter (fun r => negb (same_key r row)) tbl) [row].

(** *** Binding parameters and comparing keys in SQLite

    [sqlite3] binds None, bools, ints and strs; an int outside the signed
    64-bit range raises [OverflowError], and a list or dict cannot be bound
    at all. *)

Definition in_int64 (z : Z) : bool := (- 2 ^ 63 <=? z)%Z && (z <=? 2 ^ 63 - 1)%Z.

Definition bindable (v : json) : bool :=
  match v with
  | JNum z => in_int64 z
  | JList _ | JObj _ => false
  | _ => true
  end.

(** The value a TEXT column holds for a bound value: an int (a bool binds
    as the int 0 or 1) is stored as its decimal text. *)
Definition text_affinity (v : json) : json :=
  match v with
  | JNum z => JStr (z_to_dec z)
  | JBool b => JStr (if b then "1" else "0")
  | _ => v
  end.

(** Equality of primary-key values: NULLs are all distinct. *)
Definition sql_same (a b : json) : bool :=
  match a, b with
  | JNull, _ | _, JNull => false
  | _, _ => json_eqb a b
  end.

(** *** The tables of [src/storage/database.py] *)

Record legacy_db := {
  contacts_t : list (list json);         (* id, firstname, lastname, email, created_at *)
  hubspot_metadata_t : list (list json)  (* entity_type, entity_id, key, value *)
}.

(** The primary key [id TEXT] of [contacts]. *)
Definition contacts_key (a b : list json) : bool :=
  sql_same (hd JNull a) (hd JNull b).

(** The primary key [(entity_type, entity_id, key)] of [hubspot_metadata]. *)
Definition metadata_key (a b : list json) : bool :=
  sql_same (nth 0 a JNull) (nth 0 b JNull) && sql_same (nth 1 a JNull) (nth 1 b JNull)
  && sql_same (nth 2 a JNull) (nth 2 b JNull).

(** The row [store_contacts] writes for one contact: all five columns are
    TEXT. *)
Definition contact_row (contact : json) : option (list json) :=
  let* props := py_get contact "properties" (JObj []) in
  let* id := py_getitem contact "id" in
  let* fn := py_get props "firstname" (JStr "") in
  let* ln := py_get props "lastname" (JStr "") in
  let* em := py_get props "email" (JStr "") in
  let* cd := py_get props "createdate" (JStr "") in
  if forallb bindable [id; fn; ln; em; cd]
  then Some (map text_affinity [id; fn; ln; em; cd]) else None.

(** The row written for one metadata entry: all four columns are TEXT. *)
Definition metadata_row (meta : json) : option (list json) :=
  let* et := py_getitem meta "entity_type" in
  let* ei := py_getitem meta "entity_id" in
  let* k := py_getitem meta "key" in
  let* v := py_getitem meta "value" in
  if forallb bindable [et; ei; k; v]
  then Some (map text_affinity [et; ei; k; v]) else None.

Fixpoint upsert_all {R} (same_key : R -> R -> bool) (rows : list R) (tbl : list R) : list R :=
  match rows with
  | [] => tbl
  | r :: rs => upsert_all same_key rs (upsert same_key r tbl)
  end.

Definition store_contact_one (db : legacy_db) (contact : json) : option legacy_db :=
  let* row := contact_row contact in
  let t := upsert contacts_key row (contacts_t db) in
  let* metas := py_get contact "metadata" (JList []) in
  let* ms := py_iter metas in
  let* mrows := map_opt metadata_row ms in
  Some {| contacts_t := t; hubspot_metadata_t := upsert_all metadata_key mrows (hubspot_metadata_t db) |}.

(** [Database.store_contacts]: one transaction; an exception inside the
    [with sqlite3.connect(...)] block rolls the whole batch back. *)
Fixpoint store_contacts (db : legacy_db) (contacts : list json) : option legacy_db :=
  match contacts with
  | [] => Some db
  | c :: cs => let* db' := store_contact_one db c in store_contacts db' cs
  end.

(** *** The unified store called by [src/main.py] *)

Record store := {
  entities : list (list pyval);
  interactions : list (list pyval)
}.

Definition entity_columns : list string :=
  ["id"; "type"; "name"; "email"; "status"; "amount"; "domain"; "role";
   "created_at"; "updated_at"; "source"; "json_payload"].

Definition column (e : pyobj) (c : string) : pyval :=
  match assoc c e with Some v => v | None => pstr "" end.

(** Modelled from the spec: [Database.store_entities], called by
    [src/main.py] but absent from [src/storage/database.py].  One row of
    the [entities] table per record, columns the record does not carry
    being the empty string, primary key [(id, source)], written with
    insert-or-replace semantics. *)
Definition entity_row (e : pyobj) : list pyval := map (column e) entity_columns.

(** Equality of primary-key values of [entities]: NULLs are all distinct. *)
Definition pyval_same (a b : pyval) : bool :=
  match a, b with
  | PJ JNull, _ | _, PJ JNull => false
  | _, _ => pyval_eqb a b
  end.

Definition entity_key (a b : list pyval) : bool :=
  pyval_same (nth 0 a (pstr "")) (nth 0 b (pstr ""))
  && pyval_same (nth 10 a (pstr "")) (nth 10 b (pstr "")).

Definition store_entities (st : store) (batch : list pyobj) : store :=
  {| entities := upsert_all entity_key (map entity_row batch) (entities st);
     interactions := interactions st |}.

Definition interaction_columns : list string :=
  ["id"; "entity_type"; "entity_id"; "author_id"; "body"; "created_at"; "is_public";
   "source"; "json_payload"].

Definition interaction_key (a b : list pyval) : bool :=
  pyval_eqb (nth 0 a (pstr "")) (nth 0 b (pstr "")).

(** Modelled from the spec: [Database.store_interactions], called by
    [src/main.py] but absent from [src/storage/database.py]; primary key
    [id], insert-or-replace semantics. *)
Definition store_interactions (st : store) (batch : list pyobj) : store :=
  {| entities := entities st;
     interactions := upsert_all interaction_key
                       (map (fun c => map (column c) interaction_columns) batch)
                       (interactions st) |}.

(** ** The run of [src/main.py] *)

(** The contact stage, lines 33-36: fetch, then one batch upsert. *)
Definition contact_stage (st : store) (pages : list json) : option (list pyobj * store) :=
  let* r := fetch_contacts pages in
  let '(contacts, _, _) := r in
  Some (contacts, store_entities st contacts).

(** *** Python sets of author ids

    A set element is hashed; [True == 1] and [False == 0] share a hash and
    compare equal, lists and dicts are unhashable ([TypeError]).  A set is
    kept in insertion order, with the first-inserted object per key. *)

Inductive hkey : Type :=
| HNone
| HInt (z : Z)
| HStr (x : string).

Definition py_hash (j : json) : option hkey :=
  match j with
  | JNull => Some HNone
  | JBool b => Some (HInt (if b then 1 else 0)%Z)
  | JNum z => Some (HInt z)
  | JStr x => Some (HStr x)
  | _ => None
  end.

Definition hkey_eqb (a b : hkey) : bool :=
  match a, b with
  | HNone, HNone => true
  | HInt x, HInt y => Z.eqb x y
  | HStr x, HStr y => String.eqb x y
  | _, _ => false
  end.

Definition py_set_add (st : list (hkey * json)) (x : json) : option (list (hkey * json)) :=
  let* h := py_hash x in
  if existsb (fun p => hkey_eqb (fst p) h) st then Some st else Some (app st [(h, x)]).

Fixpoint py_set_update (st : list (hkey * json)) (xs : list json) : option (list (hkey * json)) :=
  match xs with
  | [] => Some st
  | x :: r => let* st' := py_set_add st x in py_set_update st' r
  end.

Definition pyobj_json (o : pyobj) (k : string) : option json :=
  match assoc k o with
  | Some (PJ j) => Some j
  | _ => None
  end.

Section FanIn.

(** The comments [zendesk.fetch_comments] returns for a ticket id, and the
    record [zendesk.fetch_user] returns for a user id. *)
Variable fetch_comments : json -> list pyobj.
Variable fetch_user : json -> pyobj.

(** Lines 67-73 of [main]. *)
Fixpoint ticket_loop (st : store) (unique : list (hkey * json)) (tickets : list pyobj)
  : option (store * list (hkey * json)) :=
  match tickets with
  | [] => Some (st, unique)
  | t :: ts =>
      let* tid := pyobj_json t "id" in
      let comments := fetch_comments tid in
      let st' := store_interactions st comments in
      let* aids := map_opt (fun c => pyobj_json c "author_id") comments in
      let* user_ids := py_set_update [] aids in
      let* unique' := py_set_update unique (map snd user_ids) in
      ticket_loop st' unique' ts
  end.

(** The ids [main] passes to [zendesk.fetch_user], one per element of
    [unique_users], in the set's iteration order. *)
Definition user_fetch_ids (st : store) (tickets : list pyobj) : option (store * list json) :=
  let* r := ticket_loop st [] tickets in
  Some (fst r, map snd (snd r)).

(** Lines 67-78 of [main]: the comment pass, then the user fetches and
    their upsert. *)
Definition user_stage (st : store) (tickets : list pyobj) : option (list json * store) :=
  let* r := user_fetch_ids st tickets in
  let '(st', ids) := r in
  Some (ids, store_entities st' (map fetch_user ids)).

End FanIn.

(** ** [GooglePlayClient._make_request] and the token refresh *)

Record response := { status_code : Z; body : json }.

Inductive event : Type :=
| EGet        (* requests.get on the reviews endpoint *)
| ERefresh.   (* requests.post on the token endpoint *)

(** The transport answers each call with the next reply of a script;
    [None] is a [RequestException] (or a script used up). *)
Record gp_state := {
  get_replies : list (option response);
  token_replies : list (option response);
  authorization : string;
  trace : list event
}.

(** [response.raise_for_status(); return response.json()] *)
Definition raise_for_status (r : response) : option json :=
  if Z.leb 400 (status_code r) && Z.ltb (status_code r) 600 then None else Some (body r).

Definition gp_get (st : gp_state) : option response * gp_state :=
  let tr := app (trace st) [EGet] in
  match get_replies st with
  | [] => (None, {| get_replies := []; token_replies := token_replies st;
                   authorization := authorization st; trace := tr |})
  | r :: rest => (r, {| get_replies := rest; token_replies := token_replies st;
                        authorization := authorization st; trace := tr |})
  end.

(** [_refresh_access_token], then [self.headers["Authorization"] = f"Bearer {token}"]. *)
Definition gp_refresh (st : gp_state) : option unit * gp_state :=
  let tr := app (trace st) [ERefresh] in
  let '(reply, rest) := match token_replies st with
                        | [] => (None, [])
                        | r :: rs => (r, rs)
                        end in
  let fail := (None, {| get_replies := get_replies st; token_replies := rest;
                        authorization := authorization st; trace := tr |}) in
  match reply with
  | None => fail
  | Some r =>
      match raise_for_status r with
      | None => fail
      | Some data =>
          match py_get data "access_token" JNull with
          | Some tok =>
              if truthy tok
              then (Some tt, {| get_replies := get_replies st; token_replies := rest;
                                authorization := "Bearer " ++ py_str tok; trace := tr |})
              else fail
          | None => fail
          end
      end
  end.

Definition gp_make_request (st : gp_state) : option json * gp_state :=
  let '(r1, st1) := gp_get st in
  match r1 with
  | None => (None, st1)
  | Some r =>
      if Z.eqb (status_code r) 401 then
        let '(ok, st2) := gp_refresh st1 in
        match ok with
        | None => (None, st2)
        | Some _ =>
            let '(r2, st3) := gp_get st2 in
            match r2 with
            | None => (None, st3)
            | Some r' => (raise_for_status r', st3)
            end
        end
      else (raise_for_status r, st1)
  end.

(** ** Rate-limit handling of the HubSpot and Zendesk clients *)

(** [response.headers.get(name)]: header names compare case-insensitively. *)
Fixpoint header_get (hs : list (string * string)) (name : string) : option string :=
  match hs with
  | [] => None
  | (k, v) :: r => if String.eqb (py_lower k) (py_lower name) then Some v else header_get r name
  end.

Definition digit_val (c : ascii) : option Z :=
  let n := nat_of_ascii c in
  if Nat.leb 48 n && Nat.leb n 57 then Some (Z.of_nat (n - 48)) else None.

Fixpoint digits_val (acc : Z) (x : string) : option Z :=
  match x with
  | EmptyString => Some acc
  | String c r => let* d := digit_val c in digits_val (acc * 10 + d)%Z r
  end.

(** The digits after the first one of a decimal literal: a single
    underscore may stand between two digits. *)
Fixpoint digits_us (acc : Z) (x : string) : option Z :=
  match x with
  | EmptyString => Some acc
  | String "_" (String c r) => let* d := digit_val c in digits_us (acc * 10 + d)%Z r
  | String c r => let* d := digit_val c in digits_us (acc * 10 + d)%Z r
  end.

Definition dec_literal (x : string) : option Z :=
  match x with
  | EmptyString => None
  | String c r => let* d := digit_val c in digits_us d r
  end.

(** [int(text)] of a str: surrounding whitespace ([str.isspace]), an
    optional sign, then decimal digits with single underscores between
    them. *)
Definition py_int (text : string) : option Z :=
  match py_strip text with
  | String "-" r => let* v := dec_literal r in Some (- v)%Z
  | String "+" r => dec_literal r
  | r => dec_literal r
  end.

Record rate_limit := { rate_limit_remaining : Z; rate_limit_reset : Z }.

(** [int(response.headers.get(name, default))]. *)
Definition header_int (hs : list (string * string)) (name : string) (default : Z) : option Z :=
  match header_get hs name with
  | Some v => py_int v
  | None => Some default
  end.

(** The body shared by both [_handle_rate_limit] methods; [now] is
    [int(time.time())].  The result is the new estimate and the argument of
    [time.sleep], if the sleep branch is taken. *)
Definition handle_rate_limit_with (rem_name reset_name : string) (rem_default : Z)
  (hs : list (string * string)) (now : Z) : option (rate_limit * option Z) :=
  let* rem := header_int hs rem_name rem_default in
  let* rst := header_int hs reset_name 0 in
  let est := {| rate_limit_remaining := rem; rate_limit_reset := rst |} in
  if Z.leb rem 5 then Some (est, Some (Z.max (rst - now) 1)) else Some (est, None).

(** [HubSpotClient._handle_rate_limit] *)
Definition hubspot_handle_rate_limit :=
  handle_rate_limit_with "X-HubSpot-RateLimit-Remaining" "X-HubSpot-RateLimit-Reset" 100.

(** [ZendeskClient._handle_rate_limit] *)
Definition zendesk_handle_rate_limit :=
  handle_rate_limit_with "X-Rate-Limit-Remaining" "X-Rate-Limit-Reset" 0.

(** [json.loads(record["json_payload"])] *)
Definition payload_of (out : pyobj) : json :=
  match assoc "json_payload" out with
  | Some (PDumped j) => j
  | _ => JNull
  end.

Definition is_obj (j : json) : bool :=
  match j with JObj _ => true | _ => false end.

(** ** More of the connectors *)

(** [ZendeskClient.fetch_comments ticket_id] after the request: [data] is
    the decoded response of [tickets/{ticket_id}/comments.json]. *)
Definition fetch_comments (ticket_id data : json) : option (list pyobj) :=
  let* cs := py_get data "comments" (JList []) in
  let* l := py_iter cs in
  map_opt (normalize_comment ticket_id) l.

(** *** [GooglePlayClient.fetch_reviews] against a stub transport

    As for the other connectors, each [_make_request] is answered with the
    next page of a fixed sequence.  [clock k] is the stamp the [k]-th call
    of [time.gmtime()] in the fetch formats to: one call per review. *)

(** The inner loop over [data.get("reviews", [])]; [k] counts the reviews
    of the earlier pages. *)
Fixpoint gp_page_go (package_name : string) (clock : nat -> string) (k : nat) (l : list json)
  : option (list pyobj) :=
  match l with
  | [] => Some []
  | r :: rs =>
      let* x := normalize_review package_name (clock k) r in
      let* xs := gp_page_go package_name clock (S k) rs in
      Some (x :: xs)
  end.

Definition gp_page (package_name : string) (clock : nat -> string) (k : nat) (data : json)
  : option (list pyobj) :=
  let* rs := py_get data "reviews" (JList []) in
  let* l := py_iter rs in
  gp_page_go package_name clock k l.

(** [data.get("tokenPagination", {}).get("nextPageToken")] *)
Definition gp_next_token (data : json) : option json :=
  let* tp := py_get data "tokenPagination" (JObj []) in
  py_get tp "nextPageToken" JNull.

(** The [while True] loop; the request carries [token] only when it is
    truthy.  Returns the reviews, the pages left, and the token parameter
    of every request. *)
Fixpoint gp_reviews_paged (package_name : string) (clock : nat -> string) (k : nat)
  (token : json) (pages : list json) : option (list pyobj * list json * list (option json)) :=
  match pages with
  | [] => None
  | data :: rest =>
      let req := if truthy token then Some token else None in
      let* recs := gp_page package_name clock k data in
      let* tok := gp_next_token data in
      if truthy tok then
        let* r := gp_reviews_paged package_name clock (k + List.length recs) tok rest in
        let '(recs', rest', reqs) := r in
        Some (app recs recs', rest', req :: reqs)
      else Some (recs, rest, [req])
  end.

Definition fetch_reviews (package_name : string) (clock : nat -> string) (pages : list json) :=
  gp_reviews_paged package_name clock 0 JNull pages.

(** *** SQLite tables with an [INTEGER PRIMARY KEY]

    Such a column is the rowid.  A bound int is the key (a bool is 0 or 1);
    NULL makes SQLite pick a fresh rowid; a text of decimal digits is
    converted by the column's INTEGER affinity when the number fits in 64
    bits; any other value is refused here.  SQLite also converts other
    integer spellings of a text ("+6", " 7 ", "8.0"), which this model
    refuses: a property of a store that succeeds is unaffected.  Other
    columns keep the bound values. *)

Definition int_pk (v : json) : option (option Z) :=
  match v with
  | JNull => Some None
  | JBool b => Some (Some (if b then 1 else 0)%Z)
  | JNum z => Some (Some z)
  | JStr (String c r) =>
      let* z := digits_val 0 (String c r) in if in_int64 z then Some (Some z) else None
  | _ => None
  end.

(** The rowid SQLite gives a row inserted with a NULL key: one more than the
    largest rowid in use, 1 in an empty table.  This holds while the largest
    rowid is below [2^63 - 1]; at that rowid SQLite picks an unused rowid at
    random, which is not modelled: a property that relies on this function
    assumes the rowids in use below that bound. *)
Definition fresh_rowid (tbl : list (Z * list json)) : Z :=
  match tbl with
  | [] => 1
  | r :: rs => 1 + fold_right Z.max (fst r) (map fst rs)
  end.

(** [INSERT OR REPLACE] into a rowid table. *)
Definition rowid_upsert (k : option Z) (cols : list json) (tbl : list (Z * list json))
  : list (Z * list json) :=
  let k' := match k with Some z => z | None => fresh_rowid tbl end in
  app (filter (fun r => negb (Z.eqb (fst r) k')) tbl) [(k', cols)].

(** *** [Database.store_tickets], [Database.store_comments] and
    [Database.store_users] of [src/storage/database.py] *)

Record zendesk_tables := {
  tickets_t : list (Z * list json);          (* id; subject, status, created_at *)
  zcomments_t : list (Z * list json);        (* id; ticket_id, author_id, body, created_at, public *)
  zendesk_metadata_t : list (list json);     (* entity_type, entity_id, key, value *)
  users_t : list (Z * list json)             (* id; name, email, role *)
}.

(** The key [(entity_type, entity_id, key)] of [zendesk_metadata]; the
    entity ids compared are the ids of the records as given (integers from
    the API), the INTEGER affinity of [entity_id], which turns a text of
    digits into an integer, is not modelled. *)
Definition zmeta_key (a b : list json) : bool :=
  sql_same (nth 0 a JNull) (nth 0 b JNull) && sql_same (nth 1 a JNull) (nth 1 b JNull)
  && sql_same (nth 2 a JNull) (nth 2 b JNull).

(** One iteration of [for field in ticket.get("metadata", [])]: the row it
    writes, if any. *)
Definition ticket_meta_row (tid : json) (field : json) : option (option (list json)) :=
  let* field_id := py_get field "id" JNull in
  let* value := py_get field "value" JNull in
  match field_id, value with
  | JNull, _ | _, JNull => Some None
  | _, _ => Some (Some [JStr "ticket"; tid; JStr (py_str field_id); JStr (py_str value)])
  end.

Definition somes {A} (l : list (option A)) : list A :=
  flat_map (fun o => match o with Some x => [x] | None => [] end) l.

(** One ticket of the loop; the writes of a failing ticket are rolled back
    with the whole transaction, so its rows are written all at once. *)
Definition store_ticket_one (db : zendesk_tables) (ticket : json) : option zendesk_tables :=
  let* tid := py_getitem ticket "id" in
  let* subject := py_get ticket "subject" (JStr "") in
  let* status := py_get ticket "status" (JStr "") in
  let* created := py_get ticket "created_at" (JStr "") in
  let* k := (if forallb bindable [tid; subject; status; created] then int_pk tid else None) in
  let* fields := py_get ticket "metadata" (JList []) in
  let* fs := py_iter fields in
  let* rows := map_opt (ticket_meta_row tid) fs in
  Some {| tickets_t := rowid_upsert k [subject; status; created] (tickets_t db);
          zcomments_t := zcomments_t db;
          zendesk_metadata_t := upsert_all zmeta_key (somes rows) (zendesk_metadata_t db);
          users_t := users_t db |}.

Fixpoint store_tickets (db : zendesk_tables) (tickets : list json) : option zendesk_tables :=
  match tickets with
  | [] => Some db
  | t :: ts => let* db' := store_ticket_one db t in store_tickets db' ts
  end.

(** The parameters of [INSERT OR REPLACE INTO users (id, name, email, role)],
    shared by [storage.Database.store_users] and [database.Database.store_user]. *)
Definition user_row (user : json) : option (option Z * list json) :=
  let* id := py_get user "id" JNull in
  let* name := py_get user "name" (JStr "") in
  let* email := py_get user "email" (JStr "") in
  let* role := py_get user "role" (JStr "") in
  if forallb bindable [id; name; email; role]
  then let* k := int_pk id in Some (k, [name; email; role])
  else None.

Fixpoint store_users (db : zendesk_tables) (users : list json) : option zendesk_tables :=
  match users with
  | [] => Some db
  | u :: us =>
      let* r := user_row u in
      let '(k, cols) := r in
      store_users {| tickets_t := tickets_t db; zcomments_t := zcomments_t db;
                     zendesk_metadata_t := zendesk_metadata_t db;
                     users_t := rowid_upsert k cols (users_t db) |} us
  end.

(** The rows [for key, value in comment.get("metadata", {}).items()]
    writes into [zendesk_metadata]. *)
Definition zcomment_meta_rows (cid : json) (md : json) : option (list (list json)) :=
  let* items := py_items md in
  Some (flat_map (fun kv =>
          match snd kv with
          | JObj sub => map (fun skv => [JStr "comment"; cid; JStr (fst kv ++ "." ++ fst skv);
                                         JStr (py_str (snd skv))]) sub
          | v => [[JStr "comment"; cid; JStr (fst kv); JStr (py_str v)]]
          end) items).

Definition store_zcomment_one (db : zendesk_tables) (comment : json) : option zendesk_tables :=
  let* id := py_getitem comment "id" in
  let* ticket_id := py_getitem comment "ticket_id" in
  let* author_id := py_getitem comment "author_id" in
  let* body := py_getitem comment "body" in
  let* created := py_getitem comment "created_at" in
  let* public := py_getitem comment "public" in
  let* k := (if forallb bindable [id; ticket_id; author_id; body; created; public]
             then int_pk id else None) in
  let* md := py_get comment "metadata" (JObj []) in
  let* mrows := zcomment_meta_rows id md in
  Some {| tickets_t := tickets_t db;
          zcomments_t := rowid_upsert k [ticket_id; author_id; body; created; public] (zcomments_t db);
          zendesk_metadata_t := upsert_all zmeta_key mrows (zendesk_metadata_t db);
          users_t := users_t db |}.

(** [storage.Database.store_comments]: one transaction. *)
Fixpoint store_zcomments (db : zendesk_tables) (comments : list json) : option zendesk_tables :=
  match comments with
  | [] => Some db
  | c :: cs => let* db' := store_zcomment_one db c in store_zcomments db' cs
  end.

(** *** [Database.store_comments] and [Database.store_user] of [src/database.py] *)

Record comments_db := {
  comments_t : list (Z * list json);   (* id; ticket_id, author_id, body, created_at, public *)
  metadata_t : list (list json);       (* comment_id, key, value: no key, plain INSERT *)
  cusers_t : list (Z * list json)      (* id; name, email, role *)
}.

(** The rows [for key, value in comment['metadata'].items()] inserts. *)
Definition comment_meta_rows (cid : json) (md : json) : option (list (list json)) :=
  let* items := py_items md in
  Some (flat_map (fun kv =>
          match snd kv with
          | JObj sub => map (fun skv => [cid; JStr (fst kv ++ "." ++ fst skv); JStr (py_str (snd skv))]) sub
          | v => [[cid; JStr (fst kv); JStr (py_str v)]]
          end) items).

Definition store_comment_one (db : comments_db) (comment : json) : option comments_db :=
  let* id := py_getitem comment "id" in
  let* ticket_id := py_getitem comment "ticket_id" in
  let* author_id := py_getitem comment "author_id" in
  let* body := py_getitem comment "body" in
  let* created := py_getitem comment "created_at" in
  let* public := py_getitem comment "public" in
  let* k := (if forallb bindable [id; ticket_id; author_id; body; created; public]
             then int_pk id else None) in
  let* md := py_getitem comment "metadata" in
  let* mrows := comment_meta_rows id md in
  Some {| comments_t := rowid_upsert k [ticket_id; author_id; body; created; public] (comments_t db);
          metadata_t := app (metadata_t db) mrows;
          cusers_t := cusers_t db |}.

(** [database.Database.store_comments]: one transaction. *)
Fixpoint store_comments (db : comments_db) (comments : list json) : option comments_db :=
  match comments with
  | [] => Some db
  | c :: cs => let* db' := store_comment_one db c in store_comments db' cs
  end.

Definition store_user (db : comments_db) (user : json) : option comments_db :=
  let* r := user_row user in
  let '(k, cols) := r in
  Some {| comments_t := comments_t db; metadata_t := metadata_t db;
          cusers_t := rowid_upsert k cols (cusers_t db) |}.

(** *** [load_config] of [src/config.py] *)

(** [os.getenv(k, d)] *)
Definition py_getenv (env : list (string * string)) (k d : string) : string :=
  match assoc k env with Some v => v | None => d end.

(** [load_dotenv()] with its default [override=False]: [dotenv] is the
    parsed [.env] file ([dotenv_values()], a dict); each of its variables is
    set unless the environment already has it. *)
Definition load_dotenv (env dotenv : list (string * string)) : list (string * string) :=
  app env (filter (fun kv => match assoc (fst kv) env with Some _ => false | None => true end)
                  dotenv).

(** [str(Path(d) / f)] for the directory [d] of a file. *)
Definition path_join (d f : string) : string :=
  if String.eqb d "/" then "/" ++ f else d ++ "/" ++ f.

Definition load_config (env dotenv : list (string * string)) (project_dir : string)
  : list (string * string) :=
  let env := load_dotenv env dotenv in
  let default_db_path := path_join project_dir "crm_data.db" in
  [("hubspot_access_token", py_getenv env "HUBSPOT_ACCESS_TOKEN" "your_hubspot_access_token");
   ("zendesk_domain", py_getenv env "ZENDESK_DOMAIN" "yourcompany.zendesk.com");
   ("zendesk_email", py_getenv env "ZENDESK_EMAIL" "your_email@example.com");
   ("zendesk_api_token", py_getenv env "ZENDESK_API_TOKEN" "your_zendesk_api_token");
   ("google_play_client_id", py_getenv env "GOOGLE_PLAY_CLIENT_ID" "your_google_play_client_id");
   ("google_play_client_secret",
      py_getenv env "GOOGLE_PLAY_CLIENT_SECRET" "your_google_play_client_secret");
   ("google_play_refresh_token",
      py_getenv env "GOOGLE_PLAY_REFRESH_TOKEN" "your_google_play_refresh_token");
   ("database_path", py_getenv env "DATABASE_PATH" default_db_path)].

(** [sep] starts at no position of [pre] in the text [pre ++ rest]. *)
Fixpoint starts_nowhere_in (sep pre rest : string) : bool :=
  match pre with
  | EmptyString => true
  | String c pre' => negb (starts_with sep (pre ++ rest)) && starts_nowhere_in sep pre' rest
  end.

(** ** Sample inputs *)

Definition empty_legacy_db : legacy_db := {| contacts_t := []; hubspot_metadata_t := [] |}.
Definition empty_store : store := {| entities := []; interactions := [] |}.

Definition sample_contact (id email : string) : json :=
  JObj [("id", JStr id); ("properties", JObj [("email", JStr email)])].

Definition lead_contact (id stage : string) : json :=
  JObj [("id", JStr id); ("properties", JObj [("lifecyclestage", JStr stage)])].

(** One page of contacts with lifecycle stages "Lead", "customer", "LEAD", "". *)
Definition lead_pages : list json :=
  [JObj [("results", JList [lead_contact "1" "Lead"; lead_contact "2" "customer";
                            lead_contact "3" "LEAD"; lead_contact "4" ""])]].

(** A token endpoint refusing the refresh token after a 401. *)
Definition gp_401_then_token_error : gp_state :=
  {| get_replies := [Some {| status_code := 401; body := JObj [] |};
                     Some {| status_code := 200; body := JObj [("reviews", JList [])] |}];
     token_replies := [Some {| status_code := 400;
                               body := JObj [("error", JStr "invalid_grant")] |}];
     authorization := "Bearer expired";
     trace := [] |}.

(** A CRM page: [{"results": recs, "paging": {"next": {"after": a}}}]. *)
Definition crm_page (recs : list json) (cursor : option string) : json :=
  match cursor with
  | Some a => JObj [("results", JList recs);
                    ("paging", JObj [("next", JObj [("after", JStr a)])])]
  | None => JObj [("results", JList recs)]
  end.

(** A helpdesk search page: [{"results": recs, "next_page": url}]. *)
Definition helpdesk_page (recs : list json) (next : option string) : json :=
  match next with
  | Some url => JObj [("results", JList recs); ("next_page", JStr url)]
  | None => JObj [("results", JList recs)]
  end.

Definition sample_ticket (id : Z) : json :=
  JObj [("id", JNum id); ("subject", JStr "Printer"); ("priority", JStr "high")].

(** A HubSpot contact carrying the top-level timestamps HubSpot returns. *)
Definition contact_with_timestamps : json :=
  JObj [("id", JStr "101"); ("createdAt", JStr "2024-01-01T00:00:00Z");
        ("properties", JObj [("email", JStr "a@example.com"); ("lifecyclestage", JStr "lead")])].

(** No column of a canonical record holds the value [v]. *)
Definition no_column_holds (out : pyobj) (v : pyval) : bool :=
  forallb (fun kv => negb (pyval_eqb (snd kv) v)) out.

(** A Zendesk comment without [author_id], and one without [public]. *)
Definition comment_without_author : json := JObj [("id", JNum 5); ("body", JStr "Hi")].
Definition comment_without_public : json :=
  JObj [("id", JNum 6); ("author_id", JNum 9); ("body", JStr "Hi")].

(** A Zendesk user response whose user has no [id]. *)
Definition user_without_id : json := JObj [("user", JObj [("name", JStr "Ann")])].

(** A set of integer ids: each element is [(HInt z, JNum z)], no id twice. *)
Definition int_set (u : list (hkey * json)) : Prop :=
  Forall (fun p => exists z, p = (HInt z, JNum z)) u /\ NoDup (map snd u).

(** Three tickets whose comments have the author ids {1,2}, {2,3} and {1}. *)
Definition fanin_comment (cid author : Z) : pyobj :=
  [("id", PJ (JNum cid)); ("author_id", PJ (JNum author)); ("body", pstr "")].

Definition fanin_tickets : list pyobj :=
  [[("id", PJ (JNum 1))]; [("id", PJ (JNum 2))]; [("id", PJ (JNum 3))]].

Definition fanin_comments (tid : json) : list pyobj :=
  match tid with
  | JNum z =>
      if Z.eqb z 1 then [fanin_comment 10 1; fanin_comment 11 2]
      else if Z.eqb z 2 then [fanin_comment 20 2; fanin_comment 21 3]
      else if Z.eqb z 3 then [fanin_comment 30 1]
      else []
  | _ => []
  end.

Definition fanin_user (uid : json) : pyobj := [("id", PJ uid); ("type", pstr "user")].

(** A HubSpot contact with the top-level [createdAt] HubSpot returns, and
    the two CRM pages of the scenario: cursor [after="A"], then none. *)
Definition crm_contact (id : string) : json :=
  JObj [("id", JStr id); ("createdAt", JStr "2024-01-01T00:00:00Z");
        ("properties", JObj [("email", JStr (id ++ "@example.com"))])].

Definition crm_two_pages (c1 c2 : json) : list json :=
  [crm_page [c1] (Some "A"); crm_page [c2] None].

(** The records of a page, [[]] when the page raises. *)
Definition page_records (norm : json -> option pyobj) (data : json) : list pyobj :=
  match hs_page norm data with Some r => r | None => [] end.

(** * Properties *)

(** ** Equality tests and dictionary lemmas *)

Lemma json_eqb_refl : forall j, json_eqb j j = true.
Proof.
  fix IH 1. intros [| b | z | x | xs | kvs]; simpl.
  - reflexivity.
  - destruct b; reflexivity.
  - apply Z.eqb_refl.
  - apply String.eqb_refl.
  - revert xs. fix IHl 1. intros [| y ys]; [reflexivity |].
    rewrite IH. simpl. apply IHl.
  - revert kvs. fix IHl 1. intros [| [k v] kvs]; [reflexivity |].
    rewrite String.eqb_refl, IH. simpl. apply IHl.
Qed.

Lemma pyval_eqb_refl : forall v, pyval_eqb v v = true.
Proof. intros [j | j]; apply json_eqb_refl. Qed.

Lemma upsert_keeps_one {R} (same_key : R -> R -> bool) (row : R) (tbl : list R) :
  same_key row row = true ->
  filter (fun r => same_key r row) (upsert same_key row tbl) = [row].
Proof.
  intros Hrefl. unfold upsert. rewrite filter_app. simpl. rewrite Hrefl.
  induction tbl as [| r tbl IH]; simpl; [reflexivity |].
  destruct (same_key r row) eqn:E; simpl; [exact IH | rewrite E; exact IH].
Qed.

Lemma sql_same_refl_r : forall a b, sql_same a b = true -> sql_same b b = true.
Proof.
  intros a b H. destruct a, b; try discriminate H; unfold sql_same; apply json_eqb_refl.
Qed.

Lemma pyval_same_refl_r : forall a b, pyval_same a b = true -> pyval_same b b = true.
Proof.
  intros [a | a] [b | b] H; try (destruct a; discriminate H);
    destruct b; try discriminate H; destruct a; try discriminate H;
    unfold pyval_same; apply pyval_eqb_refl.
Qed.

Lemma entity_key_refl_r : forall a b, entity_key a b = true -> entity_key b b = true.
Proof.
  intros a b H. unfold entity_key in *. apply andb_true_iff in H as [H1 H2].
  rewrite (pyval_same_refl_r _ _ H1), (pyval_same_refl_r _ _ H2). reflexivity.
Qed.

Lemma contacts_key_refl_r : forall a b, contacts_key a b = true -> contacts_key b b = true.
Proof. intros a b. apply sql_same_refl_r. Qed.

Lemma assoc_filter_kept {A} (excl : list string) (kvs : list (string * A)) (k : string) :
  str_mem k excl = false -> assoc k (py_filter_keys excl kvs) = assoc k kvs.
Proof.
  intros Hk. induction kvs as [| [k' v] kvs IH]; simpl; [reflexivity |].
  destruct (String.eqb k k') eqn:E.
  - apply String.eqb_eq in E. subst k'. rewrite Hk. simpl. rewrite String.eqb_refl. reflexivity.
  - destruct (negb (str_mem k' excl)); simpl; [rewrite E |]; exact IH.
Qed.

Lemma assoc_filter_dropped {A} (excl : list string) (kvs : list (string * A)) (k : string) :
  str_mem k excl = true -> assoc k (py_filter_keys excl kvs) = None.
Proof.
  intros Hk. induction kvs as [| [k' v] kvs IH]; simpl; [reflexivity |].
  destruct (str_mem k' excl) eqn:E; simpl; [exact IH |].
  destruct (String.eqb k k') eqn:E'; [| exact IH].
  apply String.eqb_eq in E'. subst k'. congruence.
Qed.

Lemma assoc_setitem_same {A} (kvs : list (string * A)) (k : string) (v : A) :
  assoc k (py_setitem kvs k v) = Some v.
Proof.
  unfold py_setitem. destruct (existsb _ kvs) eqn:E.
  - induction kvs as [| [k' w] kvs IH]; simpl in *; [discriminate |].
    destruct (String.eqb k' k) eqn:E1; simpl.
    + rewrite String.eqb_refl. reflexivity.
    + rewrite String.eqb_sym, E1. apply IH. exact E.
  - induction kvs as [| [k' w] kvs IH]; simpl in *.
    + rewrite String.eqb_refl. reflexivity.
    + apply orb_false_iff in E as [E1 E2]. rewrite String.eqb_sym, E1. apply IH, E2.
Qed.

Lemma assoc_setitem_other {A} (kvs : list (string * A)) (k k' : string) (v : A) :
  String.eqb k k' = false -> assoc k (py_setitem kvs k' v) = assoc k kvs.
Proof.
  intros Hk. unfold py_setitem. destruct (existsb _ kvs).
  - induction kvs as [| [k'' w] kvs IH]; simpl; [reflexivity |].
    destruct (String.eqb k'' k') eqn:E1; simpl.
    + apply String.eqb_eq in E1. subst k''. rewrite Hk. exact IH.
    + destruct (String.eqb k k''); [reflexivity | exact IH].
  - induction kvs as [| [k'' w] kvs IH]; simpl.
    + rewrite Hk. reflexivity.
    + destruct (String.eqb k k''); [reflexivity | exact IH].
Qed.

(** ** Claims *)

(** C1: upserting a record and then a second record with the same primary
    key leaves exactly one row under that key, equal in every column to the
    second record's row: for [store_contacts] (key [id], compared as the
    TEXT the column stores) and for the entity upsert [store_entities] (key
    [(id, source)]).  Keys compare as in SQLite: a NULL is the same key as
    nothing, so two records with a NULL id do not share a key. *)
Theorem upsert_last_write_wins :
  (forall db c1 c2 r1 r2 db1 db2,
     contact_row c1 = Some r1 -> contact_row c2 = Some r2 -> contacts_key r1 r2 = true ->
     store_contacts db [c1] = Some db1 -> store_contacts db1 [c2] = Some db2 ->
     filter (fun r => contacts_key r r2) (contacts_t db2) = [r2])
  /\ (forall st e1 e2,
     entity_key (entity_row e1) (entity_row e2) = true ->
     filter (fun r => entity_key r (entity_row e2))
       (entities (store_entities (store_entities st [e1]) [e2])) = [entity_row e2]).
Proof.
  split.
  - intros db c1 c2 r1 r2 db1 db2 _ Hr2 Hk _ H2. simpl in H2.
    unfold store_contact_one in H2. rewrite Hr2 in H2.
    destruct (py_get c2 "metadata" (JList [])) as [metas |]; [| discriminate].
    destruct (py_iter metas) as [ms |]; [| discriminate].
    destruct (map_opt metadata_row ms) as [mrows |]; [| discriminate].
    injection H2 as <-. simpl. apply upsert_keeps_one, (contacts_key_refl_r _ _ Hk).
  - intros st e1 e2 Hk. simpl. apply upsert_keeps_one, (entity_key_refl_r _ _ Hk).
Qed.

Lemma upsert_last_write_wins_witness :
  filter (fun r => contacts_key r [JStr "7"; JStr ""; JStr ""; JStr "b@x"; JStr ""])
    (contacts_t {| contacts_t := [[JStr "7"; JStr ""; JStr ""; JStr "b@x"; JStr ""]];
                   hubspot_metadata_t := [] |})
  = [[JStr "7"; JStr ""; JStr ""; JStr "b@x"; JStr ""]].
Proof.
  apply (proj1 upsert_last_write_wins empty_legacy_db
           (sample_contact "7" "a@x") (sample_contact "7" "b@x")
           [JStr "7"; JStr ""; JStr ""; JStr "a@x"; JStr ""]
           [JStr "7"; JStr ""; JStr ""; JStr "b@x"; JStr ""]
           {| contacts_t := [[JStr "7"; JStr ""; JStr ""; JStr "a@x"; JStr ""]];
              hubspot_metadata_t := [] |}); reflexivity.
Defined.

(** C3 (code defect): on contacts whose lifecycle stages are "Lead",
    "customer", "LEAD" and "", [fetch_leads] derives no relationship at all:
    the four contacts are fetched, but the lifecycle stage was filtered out
    of their [json_payload], which is where [fetch_leads] looks for it. *)
Theorem fetch_leads_finds_no_lead :
  (exists contacts, fetch_contacts lead_pages = Some (contacts, [], [None])
                    /\ List.length contacts = 4)
  /\ fetch_leads lead_pages = Some [].
Proof. split; [eexists; split; reflexivity | reflexivity]. Qed.

(** C10: on a response without rate-limit headers the Zendesk client
    estimates a remaining budget of 0 and sleeps at least one second, the
    HubSpot client estimates 100 and does not sleep. *)
Theorem missing_headers_backoff :
  forall hs now,
    header_get hs "X-Rate-Limit-Remaining" = None ->
    header_get hs "X-Rate-Limit-Reset" = None ->
    header_get hs "X-HubSpot-RateLimit-Remaining" = None ->
    header_get hs "X-HubSpot-RateLimit-Reset" = None ->
    (exists sl, zendesk_handle_rate_limit hs now
                = Some ({| rate_limit_remaining := 0; rate_limit_reset := 0 |}, Some sl)
                /\ (1 <= sl)%Z)
    /\ hubspot_handle_rate_limit hs now
       = Some ({| rate_limit_remaining := 100; rate_limit_reset := 0 |}, None).
Proof.
  intros hs now Hz1 Hz2 Hh1 Hh2. split.
  - unfold zendesk_handle_rate_limit, handle_rate_limit_with, header_int.
    rewrite Hz1, Hz2. simpl. eexists. split; [reflexivity | lia].
  - unfold hubspot_handle_rate_limit, handle_rate_limit_with, header_int.
    rewrite Hh1, Hh2. reflexivity.
Qed.

Lemma missing_headers_backoff_witness :
  (exists sl, zendesk_handle_rate_limit [("Content-Type", "application/json")] 1700000000
              = Some ({| rate_limit_remaining := 0; rate_limit_reset := 0 |}, Some sl)
              /\ (1 <= sl)%Z)
  /\ hubspot_handle_rate_limit [("Content-Type", "application/json")] 1700000000
     = Some ({| rate_limit_remaining := 100; rate_limit_reset := 0 |}, None).
Proof. apply missing_headers_backoff; reflexivity. Defined.

(** C8, counterexample: after a 401 whose credential refresh is refused by
    the token endpoint, the request is not retried: one GET, one refresh,
    and the call fails. *)
Lemma gp_no_retry_after_failed_refresh :
  fst (gp_make_request gp_401_then_token_error) = None
  /\ trace (snd (gp_make_request gp_401_then_token_error)) = [EGet; ERefresh].
Proof. split; reflexivity. Qed.

(** C8, as the code does it: a request is sent once; only a 401 triggers a
    credential refresh, exactly one.  When that refresh succeeds (the token
    endpoint, answering the refresh, gives a non-error status and a truthy
    [access_token]) the request is retried exactly once and the retry's
    failing status is fatal; when it fails the call fails without a
    retry.  Whether the refresh succeeds depends only on the token
    endpoint's reply, so it is stated on the state before the call. *)
Theorem gp_make_request_refresh_once :
  forall st,
    let '(res, st') := gp_make_request st in
    exists ev, trace st' = app (trace st) ev /\
    match get_replies st with
    | Some r :: rest =>
        if Z.eqb (status_code r) 401 then
          match fst (gp_refresh st) with
          | None => ev = [EGet; ERefresh] /\ res = None
          | Some _ =>
              ev = [EGet; ERefresh; EGet]
              /\ match rest with
                 | Some r2 :: _ => res = raise_for_status r2
                 | _ => res = None
                 end
          end
        else ev = [EGet] /\ res = raise_for_status r
    | _ => ev = [EGet] /\ res = None
    end.
Proof.
  intros st. destruct st as [gs ts au tr]. unfold gp_make_request, gp_get. simpl.
  destruct gs as [| [r |] rest]; simpl; [eauto | | eauto].
  destruct (Z.eqb (status_code r) 401); [| exists [EGet]; auto].
  unfold gp_refresh. simpl.
  destruct ts as [| [t |] ts']; simpl;
    [exists [EGet; ERefresh]; rewrite <- app_assoc; simpl; auto
    | | exists [EGet; ERefresh]; rewrite <- app_assoc; simpl; auto].
  destruct (raise_for_status t) as [data |];
    [| exists [EGet; ERefresh]; rewrite <- app_assoc; simpl; auto].
  destruct (py_get data "access_token" JNull) as [tok |];
    [| exists [EGet; ERefresh]; rewrite <- app_assoc; simpl; auto].
  destruct (truthy tok); [| exists [EGet; ERefresh]; rewrite <- app_assoc; simpl; auto].
  destruct rest as [| [r2 |] rest']; simpl; exists [EGet; ERefresh; EGet];
    rewrite <- !app_assoc; repeat split.
Qed.

(** ** Pagination *)

Lemma hs_paged_marked_pages :
  forall norm mids last extra after,
    Forall (fun d => exists a, hs_next d = Some (Some a)) mids ->
    hs_next last = Some None ->
    Forall (fun d => exists recs, hs_page norm d = Some recs) (app mids [last]) ->
    exists reqs, hs_paged norm after (app mids (last :: extra))
                 = Some (flat_map (page_records norm) (app mids [last]), extra, reqs).
Proof.
  intros norm mids last extra. induction mids as [| d mids IH]; intros after Hm Hl Hp; cbn [hs_paged app].
  - inversion Hp as [| ? ? [recs Hr] _]. rewrite Hr, Hl.
    cbn [flat_map]. unfold page_records. rewrite Hr, app_nil_r. eexists; reflexivity.
  - inversion Hm as [| ? ? [a Ha] Hm']; subst.
    inversion Hp as [| ? ? [recs Hr] Hp']; subst.
    rewrite Hr, Ha. destruct (IH a Hm' Hl Hp') as [reqs Hrec]. rewrite Hrec.
    assert (Hd : page_records norm d = recs) by (unfold page_records; rewrite Hr; reflexivity).
    cbn [flat_map app]. rewrite Hd. eexists; reflexivity.
Qed.

Lemma zd_paged_marked_pages :
  forall mids last extra page,
    Forall (fun d => exists p, zd_next d = Some (Some p)) mids ->
    zd_next last = Some None ->
    Forall (fun d => exists recs, hs_page normalize_ticket d = Some recs) (app mids [last]) ->
    exists reqs, zd_paged page (app mids (last :: extra))
                 = Some (flat_map (page_records normalize_ticket) (app mids [last]), extra, reqs).
Proof.
  intros mids last extra. induction mids as [| d mids IH]; intros page Hm Hl Hp; cbn [zd_paged app].
  - inversion Hp as [| ? ? [recs Hr] _]. rewrite Hr, Hl.
    cbn [flat_map]. unfold page_records. rewrite Hr, app_nil_r. eexists; reflexivity.
  - inversion Hm as [| ? ? [p Hpn] Hm']; subst.
    inversion Hp as [| ? ? [recs Hr] Hp']; subst.
    rewrite Hr, Hpn. destruct (IH (Some p) Hm' Hl Hp') as [reqs Hrec]. rewrite Hrec.
    assert (Hd : page_records normalize_ticket d = recs)
      by (unfold page_records; rewrite Hr; reflexivity).
    cbn [flat_map app]. rewrite Hd. eexists; reflexivity.
Qed.

Lemma hs_paged_raises_at :
  forall norm mids d rest after,
    Forall (fun d => exists a, hs_next d = Some (Some a)) mids ->
    Forall (fun d => exists recs, hs_page norm d = Some recs) mids ->
    hs_page norm d = None \/ hs_next d = None ->
    hs_paged norm after (app mids (d :: rest)) = None.
Proof.
  intros norm mids d rest. induction mids as [| m mids IH]; intros after Hm Hp Hd; cbn [hs_paged app].
  - destruct Hd as [Hd | Hd]; [rewrite Hd; reflexivity |].
    destruct (hs_page norm d); [rewrite Hd |]; reflexivity.
  - inversion Hm as [| ? ? [a Ha] Hm']; subst.
    inversion Hp as [| ? ? [recs Hr] Hp']; subst.
    rewrite Hr, Ha, (IH a Hm' Hp' Hd). reflexivity.
Qed.

Lemma zd_paged_raises_at :
  forall mids d rest page,
    Forall (fun d => exists p, zd_next d = Some (Some p)) mids ->
    Forall (fun d => exists recs, hs_page normalize_ticket d = Some recs) mids ->
    hs_page normalize_ticket d = None \/ zd_next d = None ->
    zd_paged page (app mids (d :: rest)) = None.
Proof.
  intros mids d rest. induction mids as [| m mids IH]; intros page Hm Hp Hd; cbn [zd_paged app].
  - destruct Hd as [Hd | Hd]; [rewrite Hd; reflexivity |].
    destruct (hs_page normalize_ticket d); [rewrite Hd |]; reflexivity.
  - inversion Hm as [| ? ? [p Hpn] Hm']; subst.
    inversion Hp as [| ? ? [recs Hr] Hp']; subst.
    rewrite Hr, Hpn, (IH (Some p) Hm' Hp' Hd). reflexivity.
Qed.

(** C4, counterexample: a page without a next-page marker ends the fetch
    even when more pages follow (the CRM fetch below stops after its first
    page), and a helpdesk [next_page] URL without "page=" makes the fetch
    raise. *)
Lemma paged_fetch_stops_early :
  (exists recs reqs,
     fetch_contacts [crm_page [sample_contact "1" "a@x"] None;
                     crm_page [sample_contact "2" "b@x"] None]
     = Some (recs, [crm_page [sample_contact "2" "b@x"] None], reqs)
     /\ List.length recs = 1)
  /\ fetch_tickets [helpdesk_page [sample_ticket 1] (Some "https://acme.zendesk.com/api/v2/search.json?cursor=xyz");
                    helpdesk_page [sample_ticket 2] None] = None.
Proof. split; [do 2 eexists; split; reflexivity | reflexivity]. Qed.

(** C4, as the code does it: if every page but the last carries a readable
    next-page marker (CRM: a truthy [paging.next] holding [after]; helpdesk:
    a truthy [next_page] string containing "page="), the last carries none,
    and every record of these pages normalizes, then the paged fetch consumes
    exactly these pages, leaves any later page unread, and returns the
    concatenation of their records in page order and in-page order.  If
    instead the fetch reaches (after pages with readable markers whose
    records normalize) a page with an unreadable marker ([hs_next] or
    [zd_next] raising) or with a record that fails to normalize, the fetch
    raises. *)
Theorem paged_fetch_concat :
  (forall norm mids last extra,
     Forall (fun d => exists a, hs_next d = Some (Some a)) mids ->
     hs_next last = Some None ->
     Forall (fun d => exists recs, hs_page norm d = Some recs) (app mids [last]) ->
     exists reqs, hs_paged norm JNull (app mids (last :: extra))
                  = Some (flat_map (page_records norm) (app mids [last]), extra, reqs))
  /\ (forall mids last extra,
     Forall (fun d => exists p, zd_next d = Some (Some p)) mids ->
     zd_next last = Some None ->
     Forall (fun d => exists recs, hs_page normalize_ticket d = Some recs) (app mids [last]) ->
     exists reqs, fetch_tickets (app mids (last :: extra))
                  = Some (flat_map (page_records normalize_ticket) (app mids [last]), extra, reqs))
  /\ (forall norm mids d rest,
     Forall (fun d => exists a, hs_next d = Some (Some a)) mids ->
     Forall (fun d => exists recs, hs_page norm d = Some recs) mids ->
     hs_page norm d = None \/ hs_next d = None ->
     hs_paged norm JNull (app mids (d :: rest)) = None)
  /\ (forall mids d rest,
     Forall (fun d => exists p, zd_next d = Some (Some p)) mids ->
     Forall (fun d => exists recs, hs_page normalize_ticket d = Some recs) mids ->
     hs_page normalize_ticket d = None \/ zd_next d = None ->
     fetch_tickets (app mids (d :: rest)) = None).
Proof.
  split; [| split; [| split]].
  - intros. apply hs_paged_marked_pages; assumption.
  - intros. apply zd_paged_marked_pages; assumption.
  - intros. apply hs_paged_raises_at; assumption.
  - intros. apply zd_paged_raises_at; assumption.
Qed.

Lemma paged_fetch_concat_witness :
  (exists reqs,
     hs_paged normalize_contact JNull
       (app [crm_page [sample_contact "1" "a@x"] (Some "A")]
            [crm_page [sample_contact "2" "b@x"] None])
     = Some (flat_map (page_records normalize_contact)
               (app [crm_page [sample_contact "1" "a@x"] (Some "A")]
                    [crm_page [sample_contact "2" "b@x"] None]), [], reqs))
  /\ (exists reqs,
     fetch_tickets
       (app [helpdesk_page [sample_ticket 1]
               (Some "https://acme.zendesk.com/api/v2/search.json?page=2&query=type%3Aticket")]
            [helpdesk_page [sample_ticket 2] None])
     = Some (flat_map (page_records normalize_ticket)
               (app [helpdesk_page [sample_ticket 1]
                       (Some "https://acme.zendesk.com/api/v2/search.json?page=2&query=type%3Aticket")]
                    [helpdesk_page [sample_ticket 2] None]), [], reqs))
  /\ fetch_tickets
       (app [helpdesk_page [sample_ticket 1]
               (Some "https://acme.zendesk.com/api/v2/search.json?page=2&query=type%3Aticket")]
            (helpdesk_page [sample_ticket 2]
               (Some "https://acme.zendesk.com/api/v2/search.json?cursor=xyz") :: [])) = None.
Proof.
  split; [| split].
  - apply (proj1 paged_fetch_concat).
    + constructor; [eexists; reflexivity | constructor].
    + reflexivity.
    + repeat constructor; eexists; reflexivity.
  - apply (proj1 (proj2 paged_fetch_concat)).
    + constructor; [eexists; reflexivity | constructor].
    + reflexivity.
    + repeat constructor; eexists; reflexivity.
  - apply (proj2 (proj2 (proj2 paged_fetch_concat))).
    + constructor; [eexists; reflexivity | constructor].
    + constructor; [eexists; reflexivity | constructor].
    + right. reflexivity.
Defined.

(** ** Normalizers *)

Ltac opt_step H :=
  match type of H with
  | context [match ?x with Some _ => _ | None => None end] =>
      let E := fresh "E" in destruct x eqn:E; [| discriminate H]
  end.

Ltac unfold_opt H := repeat opt_step H; injection H as <-.

Lemma str_mem_false_neq (k k' : string) (l : list string) :
  str_mem k l = false -> In k' l -> String.eqb k k' = false.
Proof.
  unfold str_mem. intros Hm Hin. apply String.eqb_neq. intros ->.
  assert (existsb (String.eqb k') l = true) by (apply existsb_exists; exists k'; split;
    [exact Hin | apply String.eqb_refl]).
  congruence.
Qed.

Lemma hubspot_overflow (prop_excl : list string) (kvs pitems : list (string * json)) (k : string)
  (v : json) :
  (forall pkvs, assoc "properties" kvs = Some (JObj pkvs) -> pitems = pkvs) ->
  (assoc k kvs = Some v -> str_mem k hs_top_excl = false ->
     py_getitem (JObj (py_setitem (py_filter_keys hs_top_excl kvs) "properties"
                         (JObj (py_filter_keys prop_excl pitems)))) k = Some v)
  /\ (forall pkvs, assoc "properties" kvs = Some (JObj pkvs) -> assoc k pkvs = Some v ->
      str_mem k prop_excl = false ->
      exists pp, py_getitem (JObj (py_setitem (py_filter_keys hs_top_excl kvs) "properties"
                                     (JObj (py_filter_keys prop_excl pitems)))) "properties"
                 = Some (JObj pp) /\ assoc k pp = Some v).
Proof.
  intros Hpi. split.
  - intros Hk Hx. simpl. rewrite assoc_setitem_other.
    + rewrite assoc_filter_kept; assumption.
    + apply (str_mem_false_neq _ _ _ Hx). simpl. auto.
  - intros pkvs Hp Hk Hx. exists (py_filter_keys prop_excl pitems). simpl. split.
    + apply assoc_setitem_same.
    + rewrite (Hpi pkvs Hp), assoc_filter_kept; assumption.
Qed.

Ltac hubspot_overflow_tac norm :=
  intros kvs out H; unfold norm in H; unfold_opt H; intros k v;
  match goal with
  | E : py_get (JObj kvs) "properties" _ = Some ?props,
    E0 : py_items (JObj kvs) = Some ?items,
    E1 : py_items ?props = Some ?pitems |- _ =>
      simpl in E0; injection E0 as <-; apply hubspot_overflow;
      intros pkvs Hp; simpl in E; rewrite Hp in E; injection E as <-;
      simpl in E1; congruence
  end.

Lemma contact_overflow : forall kvs out,
  normalize_contact (JObj kvs) = Some out -> forall k v,
  (assoc k kvs = Some v -> str_mem k hs_top_excl = false -> py_getitem (payload_of out) k = Some v)
  /\ (forall pkvs, assoc "properties" kvs = Some (JObj pkvs) -> assoc k pkvs = Some v ->
      str_mem k contact_props = false ->
      exists pp, py_getitem (payload_of out) "properties" = Some (JObj pp) /\ assoc k pp = Some v).
Proof. hubspot_overflow_tac normalize_contact. Qed.

Lemma company_overflow : forall kvs out,
  normalize_company (JObj kvs) = Some out -> forall k v,
  (assoc k kvs = Some v -> str_mem k hs_top_excl = false -> py_getitem (payload_of out) k = Some v)
  /\ (forall pkvs, assoc "properties" kvs = Some (JObj pkvs) -> assoc k pkvs = Some v ->
      str_mem k company_props = false ->
      exists pp, py_getitem (payload_of out) "properties" = Some (JObj pp) /\ assoc k pp = Some v).
Proof. hubspot_overflow_tac normalize_company. Qed.

Lemma deal_overflow : forall kvs out,
  normalize_deal (JObj kvs) = Some out -> forall k v,
  (assoc k kvs = Some v -> str_mem k hs_top_excl = false -> py_getitem (payload_of out) k = Some v)
  /\ (forall pkvs, assoc "properties" kvs = Some (JObj pkvs) -> assoc k pkvs = Some v ->
      str_mem k deal_props = false ->
      exists pp, py_getitem (payload_of out) "properties" = Some (JObj pp) /\ assoc k pp = Some v).
Proof. hubspot_overflow_tac normalize_deal. Qed.

Ltac flat_overflow_tac :=
  intros H k v Hk Hx; unfold_opt H;
  match goal with
  | E0 : py_items (JObj ?kvs) = Some ?items |- _ =>
      simpl in E0; injection E0 as <-; unfold payload_of, py_getitem;
      cbn -[py_filter_keys]; rewrite assoc_filter_kept; assumption
  end.

Lemma ticket_overflow : forall kvs out,
  normalize_ticket (JObj kvs) = Some out -> forall k v,
  assoc k kvs = Some v -> str_mem k ticket_excl = false -> py_getitem (payload_of out) k = Some v.
Proof. intros kvs out. unfold normalize_ticket. flat_overflow_tac. Qed.

Lemma comment_overflow : forall tid kvs out,
  normalize_comment tid (JObj kvs) = Some out -> forall k v,
  assoc k kvs = Some v -> str_mem k comment_excl = false -> py_getitem (payload_of out) k = Some v.
Proof. intros tid kvs out. unfold normalize_comment. flat_overflow_tac. Qed.

Lemma user_overflow : forall data kvs out,
  py_getitem data "user" = Some (JObj kvs) ->
  normalize_user data = Some out -> forall k v,
  assoc k kvs = Some v -> str_mem k user_excl = false -> py_getitem (payload_of out) k = Some v.
Proof.
  intros data kvs out Hu H k v Hk Hx. destruct data as [| | | | | l]; try discriminate Hu.
  simpl in Hu. unfold normalize_user in H. unfold_opt H.
  match goal with
  | E : py_get (JObj l) "user" _ = Some ?u |- _ =>
      simpl in E; rewrite Hu in E; injection E as <-
  end.
  match goal with
  | E0 : py_items (JObj kvs) = Some ?items |- _ => simpl in E0; injection E0 as <-
  end.
  unfold payload_of, py_getitem. cbn -[py_filter_keys]. rewrite assoc_filter_kept; assumption.
Qed.

Lemma review_overflow : forall pkg now kvs out,
  normalize_review pkg now (JObj kvs) = Some out -> forall k v,
  (assoc k kvs = Some v -> str_mem k review_excl = false -> String.eqb k "userComment" = false ->
     py_getitem (payload_of out) k = Some v)
  /\ (forall c0 rest uc, assoc "comments" kvs = Some (JList (JObj c0 :: rest)) ->
      assoc "userComment" c0 = Some (JObj uc) -> assoc k uc = Some v ->
      str_mem k user_comment_excl = false ->
      exists pp, py_getitem (payload_of out) "userComment" = Some (JObj pp)
                 /\ assoc k pp = Some v).
Proof.
  intros pkg now kvs out H k v. unfold normalize_review in H. unfold_opt H.
  match goal with
  | E : py_get (JObj kvs) "comments" _ = Some ?cs,
    E0 : py_index0 ?cs = Some ?c0,
    E1 : py_get ?c0 "userComment" _ = Some ?comment,
    E2 : py_items (JObj kvs) = Some ?items,
    E3 : py_items ?comment = Some ?citems |- _ =>
      simpl in E2; injection E2 as <-; unfold payload_of, py_getitem;
      cbn -[py_filter_keys py_setitem]; split;
      [ intros Hk Hx Hu; rewrite assoc_setitem_other by exact Hu;
        rewrite assoc_filter_kept; assumption
      | intros c0' rest uc Hc Hu Hk Hx; exists (py_filter_keys user_comment_excl citems);
        split; [apply assoc_setitem_same |];
        simpl in E; rewrite Hc in E; injection E as <-; simpl in E0; injection E0 as <-;
        simpl in E1; rewrite Hu in E1; injection E1 as <-; simpl in E3; injection E3 as <-;
        rewrite assoc_filter_kept; assumption ]
  end.
Qed.

Lemma contact_props_split : forall k,
  str_mem k contact_props
  = str_mem k ["firstname"; "lastname"; "email"; "createdate"; "lastmodifieddate"]
    || String.eqb k "lifecyclestage".
Proof.
  intros k. unfold str_mem, contact_props. cbn [existsb].
  destruct (String.eqb k "firstname"), (String.eqb k "lastname"), (String.eqb k "email"),
    (String.eqb k "createdate"), (String.eqb k "lastmodifieddate"),
    (String.eqb k "lifecyclestage"); reflexivity.
Qed.

Lemma filter_keys_contact_props : forall (pkvs : list (string * json)),
  assoc "lifecyclestage" pkvs = None ->
  py_filter_keys contact_props pkvs
  = py_filter_keys ["firstname"; "lastname"; "email"; "createdate"; "lastmodifieddate"] pkvs.
Proof.
  unfold py_filter_keys. induction pkvs as [| [k v] r IH]; intros H; [reflexivity |].
  cbn [assoc] in H. destruct (String.eqb "lifecyclestage" k) eqn:E; [discriminate H |].
  cbn [filter fst]. rewrite contact_props_split, String.eqb_sym, E, orb_false_r.
  destruct (negb (str_mem k _)); [f_equal |]; apply IH, H.
Qed.

(** C2 (counterexample): the contact [contact_with_timestamps] normalizes,
    but its top-level [createdAt] and its [lifecyclestage] property are
    neither promoted to a column nor kept in [json_payload]. *)
Lemma normalize_contact_loses_fields :
  exists out, normalize_contact contact_with_timestamps = Some out
    /\ payload_of out = JObj [("properties", JObj [])]
    /\ no_column_holds out (pstr "2024-01-01T00:00:00Z") = true
    /\ no_column_holds out (pstr "lead") = true.
Proof. eexists. split; [reflexivity |]. vm_compute. auto. Qed.

(** C2 (amended): for every record a normalizer accepts, every field outside
    the normalizer's drop list is kept in [json_payload] with its value:
    HubSpot top-level fields other than id, properties, createdAt and
    updatedAt, and properties other than the promoted ones (under
    [json_payload.properties]; for a contact without a lifecyclestage
    property: firstname, lastname, email, createdate, lastmodifieddate); ticket, comment and user fields outside their
    drop lists; review fields other than reviewId, comments and userComment,
    and the fields of the first comment's userComment other than text,
    starRating and lastModified (under [json_payload.userComment]). *)
Theorem normalizers_keep_undropped_fields :
  (forall kvs out, normalize_contact (JObj kvs) = Some out -> forall k v,
     (assoc k kvs = Some v -> str_mem k hs_top_excl = false ->
        py_getitem (payload_of out) k = Some v)
     /\ (forall pkvs, assoc "properties" kvs = Some (JObj pkvs) ->
         assoc "lifecyclestage" pkvs = None -> assoc k pkvs = Some v ->
         str_mem k ["firstname"; "lastname"; "email"; "createdate"; "lastmodifieddate"] = false ->
         exists pp, py_getitem (payload_of out) "properties" = Some (JObj pp)
                    /\ assoc k pp = Some v))
  /\ (forall kvs out, normalize_company (JObj kvs) = Some out -> forall k v,
     (assoc k kvs = Some v -> str_mem k hs_top_excl = false ->
        py_getitem (payload_of out) k = Some v)
     /\ (forall pkvs, assoc "properties" kvs = Some (JObj pkvs) -> assoc k pkvs = Some v ->
         str_mem k company_props = false ->
         exists pp, py_getitem (payload_of out) "properties" = Some (JObj pp)
                    /\ assoc k pp = Some v))
  /\ (forall kvs out, normalize_deal (JObj kvs) = Some out -> forall k v,
     (assoc k kvs = Some v -> str_mem k hs_top_excl = false ->
        py_getitem (payload_of out) k = Some v)
     /\ (forall pkvs, assoc "properties" kvs = Some (JObj pkvs) -> assoc k pkvs = Some v ->
         str_mem k deal_props = false ->
         exists pp, py_getitem (payload_of out) "properties" = Some (JObj pp)
                    /\ assoc k pp = Some v))
  /\ (forall kvs out, normalize_ticket (JObj kvs) = Some out -> forall k v,
      assoc k kvs = Some v -> str_mem k ticket_excl = false ->
      py_getitem (payload_of out) k = Some v)
  /\ (forall tid kvs out, normalize_comment tid (JObj kvs) = Some out -> forall k v,
      assoc k kvs = Some v -> str_mem k comment_excl = false ->
      py_getitem (payload_of out) k = Some v)
  /\ (forall data kvs out, py_getitem data "user" = Some (JObj kvs) ->
      normalize_user data = Some out -> forall k v,
      assoc k kvs = Some v -> str_mem k user_excl = false ->
      py_getitem (payload_of out) k = Some v)
  /\ (forall pkg now kvs out, normalize_review pkg now (JObj kvs) = Some out -> forall k v,
     (assoc k kvs = Some v -> str_mem k review_excl = false ->
        String.eqb k "userComment" = false -> py_getitem (payload_of out) k = Some v)
     /\ (forall c0 rest uc, assoc "comments" kvs = Some (JList (JObj c0 :: rest)) ->
         assoc "userComment" c0 = Some (JObj uc) -> assoc k uc = Some v ->
         str_mem k user_comment_excl = false ->
         exists pp, py_getitem (payload_of out) "userComment" = Some (JObj pp)
                    /\ assoc k pp = Some v)).
Proof.
  split.
  { intros kvs out H k v. destruct (contact_overflow kvs out H k v) as [Ht Hp].
    split; [exact Ht |]. intros pkvs Hprops Hls Hk Hm. apply (Hp pkvs Hprops Hk).
    rewrite contact_props_split, Hm. cbn [orb].
    destruct (String.eqb k "lifecyclestage") eqn:E; [| reflexivity].
    apply String.eqb_eq in E. subst k. congruence. }
  split; [exact company_overflow |].
  split; [exact deal_overflow |]. split; [exact ticket_overflow |].
  split; [exact comment_overflow |]. split; [exact user_overflow |].
  exact review_overflow.
Qed.

Lemma normalizers_keep_undropped_fields_witness :
  exists out, normalize_ticket (sample_ticket 7) = Some out
    /\ py_getitem (payload_of out) "priority" = Some (JStr "high").
Proof.
  destruct normalizers_keep_undropped_fields as (_ & _ & _ & Ht & _).
  eexists. split; [reflexivity |].
  apply (Ht [("id", JNum 7); ("subject", JStr "Printer"); ("priority", JStr "high")]
            _ eq_refl); reflexivity.
Defined.

(** ** Which records make a normalizer raise *)

Lemma map_opt_None {A B} (f : A -> option B) (l : list A) :
  map_opt f l = None <-> exists x, In x l /\ f x = None.
Proof.
  induction l as [| x r IH]; simpl.
  - split; [discriminate | intros (y & [] & _)].
  - destruct (f x) eqn:Ex.
    + destruct (map_opt f r) eqn:Er.
      * split; [discriminate |]. intros (y & [<- | Hy] & Hf); [congruence |].
        assert (Hn : Some l = None) by (apply IH; eauto). discriminate Hn.
      * split; [intros _ | reflexivity]. destruct (proj1 IH eq_refl) as (y & Hy & Hf).
        eauto.
    + split; [intros _; eauto | reflexivity].
Qed.

Ltac hs_raise_tac norm :=
  intros kvs; unfold norm; cbn -[py_filter_keys py_setitem];
  destruct (assoc "properties" kvs) as [[| | | | | pk] |] eqn:Hp;
  destruct (assoc "id" kvs) eqn:Hi; cbn -[py_filter_keys py_setitem];
  (split; intros H;
   [ first [discriminate H | left; reflexivity | right; eexists; split; reflexivity]
   | first [reflexivity
           | destruct H as [H | (p & Hp' & Ho)];
             [discriminate H | inversion Hp'; subst; simpl in Ho; discriminate Ho]]]).

Lemma contact_raises_iff : forall kvs,
  normalize_contact (JObj kvs) = None <->
  assoc "id" kvs = None \/ exists p, assoc "properties" kvs = Some p /\ is_obj p = false.
Proof. hs_raise_tac normalize_contact. Qed.

Lemma company_raises_iff : forall kvs,
  normalize_company (JObj kvs) = None <->
  assoc "id" kvs = None \/ exists p, assoc "properties" kvs = Some p /\ is_obj p = false.
Proof. hs_raise_tac normalize_company. Qed.

Lemma deal_raises_iff : forall kvs,
  normalize_deal (JObj kvs) = None <->
  assoc "id" kvs = None \/ exists p, assoc "properties" kvs = Some p /\ is_obj p = false.
Proof. hs_raise_tac normalize_deal. Qed.

Lemma ticket_raises_iff : forall kvs,
  normalize_ticket (JObj kvs) = None <-> assoc "id" kvs = None.
Proof.
  intros kvs. unfold normalize_ticket. cbn -[py_filter_keys].
  destruct (assoc "id" kvs); split; congruence.
Qed.

Lemma comment_raises_iff : forall tid kvs,
  normalize_comment tid (JObj kvs) = None <->
  assoc "id" kvs = None \/ assoc "author_id" kvs = None.
Proof.
  intros tid kvs. unfold normalize_comment. cbn -[py_filter_keys].
  destruct (assoc "id" kvs); destruct (assoc "author_id" kvs); cbn -[py_filter_keys];
  split; intros H; try (destruct H as [H | H]); try discriminate H; auto.
Qed.

Lemma user_raises_iff : forall dkvs,
  normalize_user (JObj dkvs) = None <->
  exists u, assoc "user" dkvs = Some u /\ is_obj u = false.
Proof.
  intros dkvs. unfold normalize_user. cbn -[py_filter_keys].
  destruct (assoc "user" dkvs) as [[| | | | | uk] |]; cbn -[py_filter_keys];
  split; intros H; try discriminate H; try (eexists; split; reflexivity);
  destruct H as (u & Hu & Ho); inversion Hu; subst; simpl in Ho; discriminate Ho.
Qed.

Lemma user_missing_id_null : forall data kvs out,
  py_get data "user" (JObj []) = Some (JObj kvs) -> normalize_user data = Some out ->
  assoc "id" kvs = None -> assoc "id" out = Some (PJ JNull).
Proof.
  intros data kvs out Hu H Hi. unfold normalize_user in H. rewrite Hu in H.
  cbn -[py_filter_keys] in H. rewrite Hi in H. injection H as <-. reflexivity.
Qed.

Lemma review_missing_id_null : forall pkg now kvs out,
  normalize_review pkg now (JObj kvs) = Some out ->
  assoc "reviewId" kvs = None -> assoc "id" out = Some (PJ JNull).
Proof.
  intros pkg now kvs out H Hi. unfold normalize_review in H. unfold_opt H.
  match goal with
  | E : py_get (JObj kvs) "reviewId" JNull = Some ?id |- _ =>
      simpl in E; rewrite Hi in E; injection E as <-
  end.
  reflexivity.
Qed.

Lemma hs_page_raises_iff : forall norm data recs,
  py_get data "results" (JList []) = Some (JList recs) ->
  (hs_page norm data = None <-> exists r, In r recs /\ norm r = None).
Proof. intros norm data recs Hr. unfold hs_page. rewrite Hr. apply map_opt_None. Qed.

Lemma paged_fetch_propagates : forall norm after data rest page,
  (hs_page norm data = None -> hs_paged norm after (data :: rest) = None)
  /\ (hs_page normalize_ticket data = None -> zd_paged page (data :: rest) = None).
Proof.
  intros norm after data rest page. split; intros H; simpl; rewrite H; reflexivity.
Qed.

(** ** Missing promoted fields *)

Lemma lstrip_app : forall s t,
  lstrip (s ++ t) = match lstrip s with EmptyString => lstrip t | _ => lstrip s ++ t end.
Proof.
  induction s as [| c s IH]; intros t; [reflexivity |]. cbn [append lstrip].
  destruct (is_space c); simpl; [apply IH | reflexivity].
Qed.

Lemma rev_str_app : forall s t acc, rev_str (s ++ t) acc = rev_str t (rev_str s acc).
Proof. induction s as [| c s IH]; intros t acc; simpl; [reflexivity | apply IH]. Qed.

Lemma py_strip_app_space : forall s, py_strip (s ++ " ") = py_strip s.
Proof.
  intros s. unfold py_strip. rewrite lstrip_app.
  destruct (lstrip s) as [| c r]; [reflexivity |]. rewrite rev_str_app. reflexivity.
Qed.

Ltac default_columns_tac :=
  eexists; split; [reflexivity |];
  repeat split; intros; cbn -[py_filter_keys py_setitem];
  repeat match goal with H : assoc _ _ = None |- _ => rewrite H; clear H end;
  reflexivity.

(** C5 (counterexample): a comment without [author_id] makes
    [fetch_comments] raise, and a comment without [public] gets
    [is_public = True], not the empty string. *)
Lemma normalize_comment_missing_fields :
  normalize_comment (JNum 1) comment_without_author = None
  /\ exists out, normalize_comment (JNum 1) comment_without_public = Some out
                 /\ assoc "is_public" out = Some (PJ (JBool true)).
Proof. split; [reflexivity |]. eexists. split; reflexivity. Qed.

(** C5 (amended): when a record carries the keys its normalizer reads with
    [[...]] (HubSpot: id, and properties absent or a dict; ticket: id;
    comment: id and author_id; user and review: dicts where a dict is
    read), the normalizer succeeds and every promoted column whose source
    field is missing holds the empty string; a contact's name is empty when
    both firstname and lastname are missing, and the other one as text,
    stripped, when one is missing.  Not every promoted field defaults: a
    missing HubSpot, ticket or comment id or comment author_id raises, a
    missing user id or reviewId gives null, a missing comment public gives
    True. *)
Theorem normalizers_default_missing_fields :
  (forall kvs pkvs id, py_getitem (JObj kvs) "id" = Some id ->
     py_get (JObj kvs) "properties" (JObj []) = Some (JObj pkvs) ->
     exists out, normalize_contact (JObj kvs) = Some out
     /\ (assoc "email" pkvs = None -> assoc "email" out = Some (pstr ""))
     /\ (assoc "createdate" pkvs = None -> assoc "created_at" out = Some (pstr ""))
     /\ (assoc "lastmodifieddate" pkvs = None -> assoc "updated_at" out = Some (pstr ""))
     /\ (assoc "firstname" pkvs = None -> assoc "lastname" pkvs = None ->
         assoc "name" out = Some (pstr ""))
     /\ (forall ln, assoc "firstname" pkvs = None -> assoc "lastname" pkvs = Some ln ->
         assoc "name" out = Some (pstr (py_strip (py_str ln))))
     /\ (forall fn, assoc "firstname" pkvs = Some fn -> assoc "lastname" pkvs = None ->
         assoc "name" out = Some (pstr (py_strip (py_str fn)))))
  /\ (forall kvs pkvs id, py_getitem (JObj kvs) "id" = Some id ->
     py_get (JObj kvs) "properties" (JObj []) = Some (JObj pkvs) ->
     exists out, normalize_company (JObj kvs) = Some out
     /\ (assoc "name" pkvs = None -> assoc "name" out = Some (pstr ""))
     /\ (assoc "domain" pkvs = None -> assoc "domain" out = Some (pstr ""))
     /\ (assoc "createdate" pkvs = None -> assoc "created_at" out = Some (pstr ""))
     /\ (assoc "lastmodifieddate" pkvs = None -> assoc "updated_at" out = Some (pstr "")))
  /\ (forall kvs pkvs id, py_getitem (JObj kvs) "id" = Some id ->
     py_get (JObj kvs) "properties" (JObj []) = Some (JObj pkvs) ->
     exists out, normalize_deal (JObj kvs) = Some out
     /\ (assoc "dealname" pkvs = None -> assoc "name" out = Some (pstr ""))
     /\ (assoc "dealstage" pkvs = None -> assoc "status" out = Some (pstr ""))
     /\ (assoc "amount" pkvs = None -> assoc "amount" out = Some (pstr ""))
     /\ (assoc "createdate" pkvs = None -> assoc "created_at" out = Some (pstr ""))
     /\ (assoc "lastmodifieddate" pkvs = None -> assoc "updated_at" out = Some (pstr "")))
  /\ (forall kvs id, py_getitem (JObj kvs) "id" = Some id ->
     exists out, normalize_ticket (JObj kvs) = Some out
     /\ (assoc "subject" kvs = None -> assoc "name" out = Some (pstr ""))
     /\ (assoc "status" kvs = None -> assoc "status" out = Some (pstr ""))
     /\ (assoc "created_at" kvs = None -> assoc "created_at" out = Some (pstr ""))
     /\ (assoc "updated_at" kvs = None -> assoc "updated_at" out = Some (pstr "")))
  /\ (forall tid kvs id a, py_getitem (JObj kvs) "id" = Some id ->
     py_getitem (JObj kvs) "author_id" = Some a ->
     exists out, normalize_comment tid (JObj kvs) = Some out
     /\ (assoc "body" kvs = None -> assoc "body" out = Some (pstr ""))
     /\ (assoc "created_at" kvs = None -> assoc "created_at" out = Some (pstr ""))
     /\ (assoc "public" kvs = None -> assoc "is_public" out = Some (PJ (JBool true))))
  /\ (forall data kvs, py_get data "user" (JObj []) = Some (JObj kvs) ->
     exists out, normalize_user data = Some out
     /\ (assoc "name" kvs = None -> assoc "name" out = Some (pstr ""))
     /\ (assoc "email" kvs = None -> assoc "email" out = Some (pstr ""))
     /\ (assoc "role" kvs = None -> assoc "role" out = Some (pstr ""))
     /\ (assoc "created_at" kvs = None -> assoc "created_at" out = Some (pstr ""))
     /\ (assoc "updated_at" kvs = None -> assoc "updated_at" out = Some (pstr "")))
  /\ (forall pkg now kvs cs c0 uc,
     py_get (JObj kvs) "comments" (JList [JObj []]) = Some cs -> py_index0 cs = Some c0 ->
     py_get c0 "userComment" (JObj []) = Some (JObj uc) ->
     exists out, normalize_review pkg now (JObj kvs) = Some out
     /\ (assoc "starRating" uc = None -> assoc "rating" out = Some (pstr ""))
     /\ (assoc "text" uc = None -> assoc "comment" out = Some (pstr "")))
  /\ (forall kvs, assoc "id" kvs = None ->
     normalize_contact (JObj kvs) = None /\ normalize_company (JObj kvs) = None
     /\ normalize_deal (JObj kvs) = None /\ normalize_ticket (JObj kvs) = None)
  /\ (forall tid kvs, assoc "id" kvs = None \/ assoc "author_id" kvs = None ->
     normalize_comment tid (JObj kvs) = None)
  /\ (forall data kvs out, py_get data "user" (JObj []) = Some (JObj kvs) ->
     normalize_user data = Some out -> assoc "id" kvs = None -> assoc "id" out = Some (PJ JNull))
  /\ (forall pkg now kvs out, normalize_review pkg now (JObj kvs) = Some out ->
     assoc "reviewId" kvs = None -> assoc "id" out = Some (PJ JNull)).
Proof.
  split; [| split; [| split; [| split; [| split; [| split; [| split; [| split; [| split; [| split]]]]]]]]].
  - intros kvs pkvs id Hid Hp. unfold normalize_contact. rewrite Hp, Hid.
    cbn -[py_filter_keys py_setitem py_strip]. eexists; split; [reflexivity |].
    repeat split; intros; cbn -[py_filter_keys py_setitem py_strip];
    repeat match goal with H : assoc _ _ = _ |- _ => rewrite H; clear H end;
    cbn -[py_strip]; first [reflexivity | rewrite py_strip_app_space; reflexivity].
  - intros kvs pkvs id Hid Hp. unfold normalize_company. rewrite Hp, Hid.
    cbn -[py_filter_keys py_setitem]. default_columns_tac.
  - intros kvs pkvs id Hid Hp. unfold normalize_deal. rewrite Hp, Hid.
    cbn -[py_filter_keys py_setitem]. default_columns_tac.
  - intros kvs id Hid. unfold normalize_ticket. rewrite Hid.
    cbn -[py_filter_keys py_setitem]. default_columns_tac.
  - intros tid kvs id a Hid Ha. unfold normalize_comment. rewrite Hid, Ha.
    cbn -[py_filter_keys py_setitem]. default_columns_tac.
  - intros data kvs Hu. unfold normalize_user. rewrite Hu.
    cbn -[py_filter_keys py_setitem]. default_columns_tac.
  - intros pkg now kvs cs c0 uc Hc H0 Hu. unfold normalize_review. rewrite Hc, H0, Hu.
    cbn -[py_filter_keys py_setitem]. default_columns_tac.
  - intros kvs Hi. repeat split.
    + apply contact_raises_iff. left. exact Hi.
    + apply company_raises_iff. left. exact Hi.
    + apply deal_raises_iff. left. exact Hi.
    + apply ticket_raises_iff. exact Hi.
  - intros tid kvs H. apply comment_raises_iff. exact H.
  - exact user_missing_id_null.
  - exact review_missing_id_null.
Qed.

Lemma normalizers_default_missing_fields_witness :
  exists out, normalize_ticket (JObj [("id", JNum 8)]) = Some out
    /\ assoc "name" out = Some (pstr "").
Proof.
  destruct normalizers_default_missing_fields as (_ & _ & _ & Ht & _).
  destruct (Ht [("id", JNum 8)] (JNum 8) eq_refl) as (out & Hout & Hname & _).
  exists out. split; [exact Hout | apply Hname; reflexivity].
Defined.

(** C6 (counterexample): a user without [id] is normalized (with a null
    id) rather than raising, and a comment that has its [id] but no
    [author_id] raises. *)
Lemma raise_not_tied_to_missing_id :
  (exists out, normalize_user user_without_id = Some out /\ assoc "id" out = Some (PJ JNull))
  /\ assoc "id" (match comment_without_author with JObj kvs => kvs | _ => [] end) = Some (JNum 5)
  /\ normalize_comment (JNum 1) comment_without_author = None.
Proof. split; [eexists; split; reflexivity | split; reflexivity]. Qed.

(** C6 (amended): on dict records, the HubSpot normalizers raise iff the id
    is missing or properties is present and not a dict; the ticket
    normalizer iff the id is missing; the comment normalizer iff the id or
    the author_id is missing; [fetch_user] iff the response's user is present
    and not a dict, a missing user id giving a null id; a review normalized
    without reviewId gets a null id.  A raising record makes its page, and so
    the whole paged fetch, raise: no record is skipped. *)
Theorem normalizers_raise_iff :
  (forall kvs, normalize_contact (JObj kvs) = None <->
     assoc "id" kvs = None \/ exists p, assoc "properties" kvs = Some p /\ is_obj p = false)
  /\ (forall kvs, normalize_company (JObj kvs) = None <->
     assoc "id" kvs = None \/ exists p, assoc "properties" kvs = Some p /\ is_obj p = false)
  /\ (forall kvs, normalize_deal (JObj kvs) = None <->
     assoc "id" kvs = None \/ exists p, assoc "properties" kvs = Some p /\ is_obj p = false)
  /\ (forall kvs, normalize_ticket (JObj kvs) = None <-> assoc "id" kvs = None)
  /\ (forall tid kvs, normalize_comment tid (JObj kvs) = None <->
     assoc "id" kvs = None \/ assoc "author_id" kvs = None)
  /\ (forall dkvs, normalize_user (JObj dkvs) = None <->
     exists u, assoc "user" dkvs = Some u /\ is_obj u = false)
  /\ (forall data kvs out, py_get data "user" (JObj []) = Some (JObj kvs) ->
     normalize_user data = Some out -> assoc "id" kvs = None -> assoc "id" out = Some (PJ JNull))
  /\ (forall pkg now kvs out, normalize_review pkg now (JObj kvs) = Some out ->
     assoc "reviewId" kvs = None -> assoc "id" out = Some (PJ JNull))
  /\ (forall norm data recs, py_get data "results" (JList []) = Some (JList recs) ->
     (hs_page norm data = None <-> exists r, In r recs /\ norm r = None))
  /\ (forall norm after data rest page,
     (hs_page norm data = None -> hs_paged norm after (data :: rest) = None)
     /\ (hs_page normalize_ticket data = None -> zd_paged page (data :: rest) = None)).
Proof.
  split; [exact contact_raises_iff |]. split; [exact company_raises_iff |].
  split; [exact deal_raises_iff |]. split; [exact ticket_raises_iff |].
  split; [exact comment_raises_iff |]. split; [exact user_raises_iff |].
  split; [exact user_missing_id_null |]. split; [exact review_missing_id_null |].
  split; [exact hs_page_raises_iff | exact paged_fetch_propagates].
Qed.

Lemma normalizers_raise_iff_witness :
  normalize_ticket (JObj [("subject", JStr "Printer")]) = None
  /\ fetch_tickets [helpdesk_page [JObj [("subject", JStr "Printer")]] None] = None.
Proof.
  destruct normalizers_raise_iff as (_ & _ & _ & Ht & _ & _ & _ & _ & Hp & Hz).
  assert (H : normalize_ticket (JObj [("subject", JStr "Printer")]) = None)
    by (apply (proj2 (Ht [("subject", JStr "Printer")])); reflexivity).
  split; [exact H |].
  apply (proj2 (Hz normalize_ticket JNull (helpdesk_page [JObj [("subject", JStr "Printer")]] None)
                   [] None)).
  apply (proj2 (Hp normalize_ticket (helpdesk_page [JObj [("subject", JStr "Printer")]] None)
                   [JObj [("subject", JStr "Printer")]] eq_refl)).
  exists (JObj [("subject", JStr "Printer")]). split; [left; reflexivity | exact H].
Defined.

(** ** The set of comment authors in [main] *)

Lemma existsb_int_set : forall u z, int_set u ->
  existsb (fun p => hkey_eqb (fst p) (HInt z)) u = true <-> In (JNum z) (map snd u).
Proof.
  intros u z [Hf _]. rewrite existsb_exists, Forall_forall in *. split.
  - intros (p & Hin & He). destruct (Hf p Hin) as (z' & ->). simpl in He.
    apply Z.eqb_eq in He. subst z'. apply in_map_iff. exists (HInt z, JNum z). auto.
  - intros Hin. apply in_map_iff in Hin. destruct Hin as (p & Hp & Hin).
    destruct (Hf p Hin) as (z' & ->). simpl in Hp. injection Hp as ->.
    exists (HInt z, JNum z). split; [exact Hin | apply Z.eqb_refl].
Qed.

Lemma int_set_values : forall u, int_set u -> Forall (fun x => exists z, x = JNum z) (map snd u).
Proof.
  intros u [Hf _]. rewrite Forall_forall in *. intros x Hx. apply in_map_iff in Hx.
  destruct Hx as (p & <- & Hp). destruct (Hf p Hp) as (z & ->). simpl. eauto.
Qed.

Lemma set_add_int : forall u z, int_set u ->
  exists u', py_set_add u (JNum z) = Some u' /\ int_set u'
             /\ (forall j, In j (map snd u') <-> In j (map snd u) \/ j = JNum z).
Proof.
  intros u z Hu. unfold py_set_add. simpl.
  destruct (existsb (fun p => hkey_eqb (fst p) (HInt z)) u) eqn:E.
  - exists u. split; [reflexivity |]. split; [exact Hu |].
    intros j. split; [auto |]. intros [H | ->]; [exact H | apply (existsb_int_set u z Hu); exact E].
  - exists (app u [(HInt z, JNum z)]). split; [reflexivity |].
    assert (Hn : ~ In (JNum z) (map snd u)).
    { intros Hin. apply (existsb_int_set u z Hu) in Hin. congruence. }
    destruct Hu as [Hf Hd]. split; [split |].
    + apply Forall_app. split; [exact Hf | repeat constructor; eauto].
    + rewrite map_app. apply (Permutation_NoDup (Permutation_cons_append _ _)).
      constructor; assumption.
    + intros j. rewrite map_app, in_app_iff. simpl. intuition.
Qed.

Lemma set_update_ints : forall xs u, int_set u -> Forall (fun x => exists z, x = JNum z) xs ->
  exists u', py_set_update u xs = Some u' /\ int_set u'
             /\ (forall j, In j (map snd u') <-> In j (map snd u) \/ In j xs).
Proof.
  induction xs as [| x r IH]; intros u Hu Hx.
  - exists u. split; [reflexivity |]. split; [exact Hu |]. simpl. intuition.
  - inversion Hx as [| ? ? (z & ->) Hr]; subst.
    destruct (set_add_int u z Hu) as (u1 & Ha & Hu1 & Hm1).
    destruct (IH u1 Hu1 Hr) as (u' & Hup & Hu' & Hm').
    exists u'. split; [simpl; rewrite Ha; exact Hup |]. split; [exact Hu' |].
    intros j. rewrite Hm', Hm1. simpl. intuition.
Qed.

Lemma map_opt_all_some {A B} (f : A -> option B) (l : list A) :
  (forall x, In x l -> exists y, f x = Some y) ->
  exists ys, map_opt f l = Some ys /\ (forall y, In y ys <-> exists x, In x l /\ f x = Some y).
Proof.
  induction l as [| x r IH]; intros Hl.
  - exists []. split; [reflexivity |]. intros y. simpl. split; [intros [] | intros (x & [] & _)].
  - destruct (Hl x (or_introl eq_refl)) as (y & Hy).
    destruct IH as (ys & Hys & Hm); [intros x' Hx'; apply Hl; right; exact Hx' |].
    exists (y :: ys). split; [simpl; rewrite Hy, Hys; reflexivity |].
    intros y'. simpl. rewrite Hm. split.
    + intros [<- | (x' & Hx' & Hf)]; eauto.
    + intros (x' & [<- | Hx'] & Hf); [left; congruence | right; eauto].
Qed.

Section FanInProofs.

Variable fetch_comments : json -> list pyobj.

Lemma ticket_loop_authors : forall tickets st u, int_set u ->
  (forall t, In t tickets -> exists tid, pyobj_json t "id" = Some tid) ->
  (forall t tid c, In t tickets -> pyobj_json t "id" = Some tid -> In c (fetch_comments tid) ->
     exists z, pyobj_json c "author_id" = Some (JNum z)) ->
  exists st' u', ticket_loop fetch_comments st u tickets = Some (st', u') /\ int_set u'
    /\ (forall j, In j (map snd u') <-> In j (map snd u)
          \/ exists t tid c, In t tickets /\ pyobj_json t "id" = Some tid
                /\ In c (fetch_comments tid) /\ pyobj_json c "author_id" = Some j).
Proof.
  induction tickets as [| t ts IH]; intros st u Hu Hid Hau.
  - exists st, u. split; [reflexivity |]. split; [exact Hu |]. intros j. split; [auto |].
    intros [H | (t & tid & c & [] & _)]. exact H.
  - destruct (Hid t (or_introl eq_refl)) as (tid & Htid).
    destruct (map_opt_all_some (fun c => pyobj_json c "author_id") (fetch_comments tid))
      as (aids & Ha & Ham).
    { intros c Hc. destruct (Hau t tid c (or_introl eq_refl) Htid Hc) as (z & Hz). eauto. }
    assert (Hai : Forall (fun x => exists z, x = JNum z) aids).
    { apply Forall_forall. intros a Hin. apply Ham in Hin. destruct Hin as (c & Hc & Hca).
      destruct (Hau t tid c (or_introl eq_refl) Htid Hc) as (z & Hz). exists z. congruence. }
    assert (H0 : int_set []) by (split; constructor).
    destruct (set_update_ints aids [] H0 Hai) as (ui & Hui & Huinv & Huim).
    destruct (set_update_ints (map snd ui) u Hu (int_set_values ui Huinv))
      as (u1 & Hu1 & Hu1inv & Hu1m).
    destruct (IH (store_interactions st (fetch_comments tid)) u1 Hu1inv) as (st' & u' & Hl & Hinv & Hm).
    { intros t' Ht'. apply Hid. right. exact Ht'. }
    { intros t' tid' c Ht'. apply Hau. right. exact Ht'. }
    exists st', u'. split.
    { cbn [ticket_loop]. rewrite Htid. cbv beta iota zeta. rewrite Ha, Hui, Hu1. exact Hl. }
    split; [exact Hinv |]. intros j. rewrite Hm, Hu1m, Huim, Ham. simpl. split.
    + intros [[H | [[] | (c & Hc & Hca)]] | (t' & tid' & c & Ht' & Hi & Hc & Hca)];
        [left; exact H | right | right].
      * exists t, tid, c. auto.
      * exists t', tid', c. auto.
    + intros [H | (t' & tid' & c & [<- | Ht'] & Hi & Hc & Hca)]; [left; left; exact H | |].
      * rewrite Htid in Hi. injection Hi as <-. left; right; right. eauto.
      * right. exists t', tid', c. auto.
Qed.

End FanInProofs.

(** C7: the ticket pass of [main] collects the comment author ids into a
    set, and [fetch_user] is called once per element of that set; when every
    ticket has an id and every comment an integer author_id, the ids passed
    to [fetch_user] have no duplicates and are exactly the author ids of the
    comments of the tickets. *)
Theorem user_fetch_once_per_author :
  forall fetch_comments fetch_user st tickets,
  (forall t, In t tickets -> exists tid, pyobj_json t "id" = Some tid) ->
  (forall t tid c, In t tickets -> pyobj_json t "id" = Some tid -> In c (fetch_comments tid) ->
     exists z, pyobj_json c "author_id" = Some (JNum z)) ->
  exists ids st', user_stage fetch_comments fetch_user st tickets
                  = Some (ids, store_entities st' (map fetch_user ids))
    /\ NoDup ids
    /\ (forall j, In j ids <-> exists t tid c, In t tickets /\ pyobj_json t "id" = Some tid
                     /\ In c (fetch_comments tid) /\ pyobj_json c "author_id" = Some j).
Proof.
  intros fetch_comments fetch_user st tickets Hid Hau.
  assert (H0 : int_set []) by (split; constructor).
  destruct (ticket_loop_authors fetch_comments tickets st [] H0 Hid Hau)
    as (st' & u' & Hl & [_ Hnd] & Hm).
  exists (map snd u'), st'. split.
  - unfold user_stage, user_fetch_ids. rewrite Hl. reflexivity.
  - split; [exact Hnd |]. intros j. rewrite Hm. simpl. intuition.
Qed.

Lemma user_fetch_once_per_author_witness :
  exists ids st', user_stage fanin_comments fanin_user empty_store fanin_tickets = Some (ids, st')
    /\ ids = [JNum 1; JNum 2; JNum 3] /\ NoDup ids.
Proof.
  destruct (user_fetch_once_per_author fanin_comments fanin_user empty_store fanin_tickets)
    as (ids & st' & Hs & Hnd & _).
  - intros t Ht. simpl in Ht. destruct Ht as [<- | [<- | [<- | []]]]; eexists; reflexivity.
  - intros t tid c Ht Hi Hc. simpl in Ht. destruct Ht as [<- | [<- | [<- | []]]];
      simpl in Hi; injection Hi as <-; simpl in Hc;
      repeat (destruct Hc as [<- | Hc]; [eexists; reflexivity |]); destruct Hc.
  - exists ids, (store_entities st' (map fanin_user ids)). split; [exact Hs |].
    split; [| exact Hnd].
    pose proof (f_equal (option_map fst) Hs) as Hf. vm_compute in Hf.
    injection Hf as Hf. symmetry. exact Hf.
Defined.

(** ** The contact stage of [main] *)

Lemma normalize_contact_shape : forall kvs pkvs id,
  py_getitem (JObj kvs) "id" = Some id ->
  py_get (JObj kvs) "properties" (JObj []) = Some (JObj pkvs) ->
  exists c, normalize_contact (JObj kvs) = Some c
    /\ assoc "id" c = Some (PJ id) /\ assoc "type" c = Some (pstr "contact")
    /\ assoc "source" c = Some (pstr "hubspot")
    /\ payload_of c = JObj (py_setitem (py_filter_keys hs_top_excl kvs) "properties"
                             (JObj (py_filter_keys contact_props pkvs))).
Proof.
  intros kvs pkvs id Hid Hp. unfold normalize_contact. rewrite Hp, Hid.
  cbn -[py_filter_keys py_setitem]. eexists. split; [reflexivity |].
  repeat split; reflexivity.
Qed.

Lemma filter_keys_absorb {A} (excl1 excl2 : list string) (kvs : list (string * A)) :
  (forall k, str_mem k excl2 = true -> str_mem k excl1 = true) ->
  py_filter_keys excl1 (py_filter_keys excl2 kvs) = py_filter_keys excl1 kvs.
Proof.
  intros H. unfold py_filter_keys. induction kvs as [| [k v] r IH]; [reflexivity |].
  cbn [filter fst]. destruct (str_mem k excl2) eqn:E2; cbn [negb filter fst].
  - rewrite (H k E2). exact IH.
  - destruct (negb (str_mem k excl1)); [f_equal |]; exact IH.
Qed.

Lemma normalize_contact_without_timestamps : forall kvs,
  normalize_contact (JObj (py_filter_keys ["createdAt"; "updatedAt"] kvs))
  = normalize_contact (JObj kvs).
Proof.
  intros kvs. unfold normalize_contact. cbn [py_get py_items py_getitem].
  rewrite !assoc_filter_kept by reflexivity.
  rewrite filter_keys_absorb; [reflexivity |].
  intros k Hk. unfold str_mem in Hk. cbn [existsb] in Hk.
  destruct (String.eqb k "createdAt") eqn:E1;
    [apply String.eqb_eq in E1; subst k; reflexivity |].
  destruct (String.eqb k "updatedAt") eqn:E2;
    [apply String.eqb_eq in E2; subst k; reflexivity | discriminate Hk].
Qed.

(** C9 (counterexample): on two pages of one contact each, cursor "A" then
    none, whose contacts carry a top-level [createdAt], the two rows'
    [json_payload] lack [createdAt], which no column holds either. *)
Lemma crm_stage_drops_created_at :
  exists recs st', contact_stage empty_store (crm_two_pages (crm_contact "1") (crm_contact "2"))
                   = Some (recs, st')
    /\ map payload_of recs = [JObj [("properties", JObj [])]; JObj [("properties", JObj [])]]
    /\ forallb (fun r => no_column_holds r (pstr "2024-01-01T00:00:00Z")) recs = true.
Proof. do 2 eexists. split; [reflexivity |]. vm_compute. auto. Qed.

(** C9 (amended): on two pages of one contact each, cursor "A" then none,
    with contacts that are dicts with an id, a dict (or no) properties and
    no lifecyclestage property, the contact stage sends two requests, the
    second with [after="A"], and upserts one 2-row batch: each row has the
    input contact's id, type "contact", source "hubspot", and a
    [json_payload] that parses to the contact's top-level fields other than
    id, properties, createdAt and updatedAt, with properties holding the
    properties other than firstname, lastname, email, createdate and
    lastmodifieddate.  The top-level createdAt and updatedAt are in neither
    a column nor the payload: the stage gives the same batch when the
    contacts come without them. *)
Theorem crm_contact_stage_two_pages :
  forall st kvs1 kvs2 pkvs1 pkvs2 id1 id2,
  py_getitem (JObj kvs1) "id" = Some id1 ->
  py_get (JObj kvs1) "properties" (JObj []) = Some (JObj pkvs1) ->
  assoc "lifecyclestage" pkvs1 = None ->
  py_getitem (JObj kvs2) "id" = Some id2 ->
  py_get (JObj kvs2) "properties" (JObj []) = Some (JObj pkvs2) ->
  assoc "lifecyclestage" pkvs2 = None ->
  exists c1 c2,
    fetch_contacts (crm_two_pages (JObj kvs1) (JObj kvs2)) = Some ([c1; c2], [], [None; Some (JStr "A")])
    /\ contact_stage st (crm_two_pages (JObj kvs1) (JObj kvs2))
       = Some ([c1; c2], store_entities st [c1; c2])
    /\ assoc "id" c1 = Some (PJ id1) /\ assoc "id" c2 = Some (PJ id2)
    /\ Forall (fun c => assoc "type" c = Some (pstr "contact")
                        /\ assoc "source" c = Some (pstr "hubspot")) [c1; c2]
    /\ payload_of c1
       = JObj (py_setitem (py_filter_keys hs_top_excl kvs1) "properties"
                 (JObj (py_filter_keys ["firstname"; "lastname"; "email"; "createdate";
                                        "lastmodifieddate"] pkvs1)))
    /\ payload_of c2
       = JObj (py_setitem (py_filter_keys hs_top_excl kvs2) "properties"
                 (JObj (py_filter_keys ["firstname"; "lastname"; "email"; "createdate";
                                        "lastmodifieddate"] pkvs2)))
    /\ contact_stage st (crm_two_pages (JObj (py_filter_keys ["createdAt"; "updatedAt"] kvs1))
                                       (JObj (py_filter_keys ["createdAt"; "updatedAt"] kvs2)))
       = Some ([c1; c2], store_entities st [c1; c2]).
Proof.
  intros st kvs1 kvs2 pkvs1 pkvs2 id1 id2 Hi1 Hp1 Hl1 Hi2 Hp2 Hl2.
  destruct (normalize_contact_shape kvs1 pkvs1 id1 Hi1 Hp1) as (c1 & Hc1 & Hid1 & Ht1 & Hs1 & Hpl1).
  destruct (normalize_contact_shape kvs2 pkvs2 id2 Hi2 Hp2) as (c2 & Hc2 & Hid2 & Ht2 & Hs2 & Hpl2).
  rewrite filter_keys_contact_props in Hpl1 by exact Hl1.
  rewrite filter_keys_contact_props in Hpl2 by exact Hl2.
  assert (Hf : fetch_contacts (crm_two_pages (JObj kvs1) (JObj kvs2))
               = Some ([c1; c2], [], [None; Some (JStr "A")])).
  { unfold fetch_contacts, crm_two_pages, crm_page. cbn -[normalize_contact].
    rewrite Hc1, Hc2. reflexivity. }
  assert (Hf' : fetch_contacts (crm_two_pages (JObj (py_filter_keys ["createdAt"; "updatedAt"] kvs1))
                                              (JObj (py_filter_keys ["createdAt"; "updatedAt"] kvs2)))
               = Some ([c1; c2], [], [None; Some (JStr "A")])).
  { unfold fetch_contacts, crm_two_pages, crm_page. cbn -[normalize_contact py_filter_keys].
    rewrite !normalize_contact_without_timestamps, Hc1, Hc2. reflexivity. }
  exists c1, c2. split; [exact Hf |]. split; [unfold contact_stage; rewrite Hf; reflexivity |].
  split; [exact Hid1 |]. split; [exact Hid2 |].
  split; [repeat constructor; assumption |].
  split; [exact Hpl1 |]. split; [exact Hpl2 |].
  unfold contact_stage. rewrite Hf'. reflexivity.
Qed.

Lemma crm_contact_stage_two_pages_witness :
  exists c1 c2, contact_stage empty_store (crm_two_pages (crm_contact "1") (crm_contact "2"))
                = Some ([c1; c2], store_entities empty_store [c1; c2])
    /\ assoc "id" c1 = Some (PJ (JStr "1")) /\ assoc "id" c2 = Some (PJ (JStr "2")).
Proof.
  destruct (crm_contact_stage_two_pages empty_store
              [("id", JStr "1"); ("createdAt", JStr "2024-01-01T00:00:00Z");
               ("properties", JObj [("email", JStr "1@example.com")])]
              [("id", JStr "2"); ("createdAt", JStr "2024-01-01T00:00:00Z");
               ("properties", JObj [("email", JStr "2@example.com")])]
              [("email", JStr "1@example.com")] [("email", JStr "2@example.com")]
              (JStr "1") (JStr "2"))
    as (c1 & c2 & _ & Hs & Hid1 & Hid2 & _); try reflexivity.
  exists c1, c2. split; [exact Hs |]. split; assumption.
Defined.

(** * Further properties of the connectors and the store *)

(** ** [HubSpotClient.fetch_leads] in general *)

Lemma map_opt_from {A B} (f : A -> option B) (l : list A) (ys : list B) :
  map_opt f l = Some ys -> Forall (fun y => exists x, f x = Some y) ys.
Proof.
  revert ys. induction l as [| x r IH]; intros ys H; simpl in H.
  - injection H as <-. constructor.
  - destruct (f x) eqn:Ex; [| discriminate].
    destruct (map_opt f r) eqn:Er; [| discriminate].
    injection H as <-. constructor; [eauto | apply IH; reflexivity].
Qed.

Lemma hs_page_from {norm data recs} :
  hs_page norm data = Some recs -> Forall (fun c => exists x, norm x = Some c) recs.
Proof.
  unfold hs_page. intros H.
  destruct (py_get data "results" (JList [])); [| discriminate].
  destruct (py_iter j); [| discriminate]. exact (map_opt_from _ _ _ H).
Qed.

Lemma hs_paged_from : forall norm pages after recs rest reqs,
  hs_paged norm after pages = Some (recs, rest, reqs) ->
  Forall (fun c => exists x, norm x = Some c) recs.
Proof.
  intros norm pages. induction pages as [| d ds IH]; intros after recs rest reqs H;
    cbn [hs_paged] in H; [discriminate |].
  destruct (hs_page norm d) as [rs |] eqn:Ep; [| discriminate].
  destruct (hs_next d) as [[a |] |]; [| | discriminate].
  - destruct (hs_paged norm a ds) as [[[rs' rest'] reqs'] |] eqn:Er; [| discriminate].
    injection H as <- _ _. apply Forall_app. split; [exact (hs_page_from Ep) | exact (IH _ _ _ _ Er)].
  - injection H as <- _ _. exact (hs_page_from Ep).
Qed.

Lemma normalize_contact_not_lead : forall x c,
  normalize_contact x = Some c -> lead_cond c = Some false.
Proof.
  intros x c H. destruct x as [| | | | | kvs]; try discriminate H.
  unfold normalize_contact in H. unfold_opt H.
  unfold lead_cond, pyobj_item, py_loads. cbn -[py_filter_keys py_setitem].
  rewrite assoc_setitem_same. cbn -[py_filter_keys].
  rewrite assoc_filter_dropped by reflexivity. reflexivity.
Qed.

Lemma leads_of_none_lead : forall cs,
  Forall (fun c => lead_cond c = Some false) cs -> leads_of cs = Some [].
Proof.
  induction cs as [| c cs IH]; intros H; [reflexivity |].
  inversion H as [| ? ? Hc Hcs]; subst. simpl. rewrite Hc. exact (IH Hcs).
Qed.

(** [fetch_leads] never yields a relationship: it raises exactly when
    [fetch_contacts] raises and returns [[]] otherwise, since the
    lifecycle stage it reads back is never in a contact's [json_payload]. *)
Theorem fetch_leads_always_empty : forall pages,
  fetch_leads pages = option_map (fun _ => []) (fetch_contacts pages).
Proof.
  intros pages. unfold fetch_leads.
  destruct (fetch_contacts pages) as [[[recs rest] reqs] |] eqn:E; [| reflexivity].
  simpl. apply leads_of_none_lead.
  apply (Forall_impl _ (fun c Hc => match Hc with ex_intro _ x Hx => normalize_contact_not_lead x c Hx end)).
  exact (hs_paged_from _ _ _ _ _ _ E).
Qed.

(** ** The page parameter of [ZendeskClient.fetch_tickets] *)

Lemma str_app_nil (s : string) : s ++ "" = s.
Proof. induction s as [| c s IH]; simpl; [reflexivity | rewrite IH; reflexivity]. Qed.

Lemma str_app_assoc (a b c : string) : (a ++ b) ++ c = a ++ (b ++ c).
Proof. induction a as [| x a IH]; simpl; [reflexivity | rewrite IH; reflexivity]. Qed.

Lemma str_length_app (a b : string) : String.length (a ++ b) = String.length a + String.length b.
Proof. induction a as [| x a IH]; simpl; [reflexivity | rewrite IH; reflexivity]. Qed.

Lemma substring_all : forall t m, String.length t <= m -> substring 0 m t = t.
Proof.
  induction t as [| c t IH]; intros m Hm; destruct m as [| m]; simpl in *; try reflexivity; try lia.
  rewrite IH by lia. reflexivity.
Qed.

Lemma substring_after : forall p t m, String.length t <= m ->
  substring (String.length p) m (p ++ t) = t.
Proof.
  induction p as [| c p IH]; intros t m Hm; simpl; [apply substring_all; exact Hm |].
  apply IH. exact Hm.
Qed.

Lemma starts_with_app (p t : string) : starts_with p (p ++ t) = true.
Proof. induction p as [| c p IH]; simpl; [reflexivity | rewrite Ascii.eqb_refl; exact IH]. Qed.

Lemma split_go_sep : forall sep t cur f, sep <> "" ->
  String.length (sep ++ t) < f ->
  split_go f sep (sep ++ t) cur = cur :: split_go (pred f) sep t "".
Proof.
  intros sep t cur f Hs Hf. destruct sep as [| a sep']; [congruence |].
  destruct f as [| f]; [simpl in Hf; lia |]. simpl split_go at 1.
  rewrite Ascii.eqb_refl, starts_with_app. cbn [andb pred]. f_equal. f_equal.
  apply substring_after. rewrite str_length_app. lia.
Qed.

Lemma split_go_skip : forall sep pre rest cur f,
  starts_nowhere_in sep pre rest = true -> String.length (pre ++ rest) < f ->
  split_go f sep (pre ++ rest) cur = split_go (f - String.length pre) sep rest (cur ++ pre).
Proof.
  intros sep pre. induction pre as [| c pre IH]; intros rest cur f Hn Hf.
  - simpl. rewrite str_app_nil, Nat.sub_0_r. reflexivity.
  - simpl in Hn. apply andb_true_iff in Hn as [Hc Hn]. apply negb_true_iff in Hc.
    destruct f as [| f]; [simpl in Hf; lia |].
    change (String c pre ++ rest) with (String c (pre ++ rest)) in Hc.
    cbn [split_go]. change (String c pre ++ rest) with (String c (pre ++ rest)). rewrite Hc.
    rewrite IH by (try exact Hn; simpl in Hf; lia).
    rewrite str_app_assoc. reflexivity.
Qed.

Lemma split_go_end : forall sep cur f, 0 < f -> split_go f sep "" cur = [cur].
Proof. intros sep cur [| f] Hf; [lia | reflexivity]. Qed.

Lemma split_go_head : forall sep f s cur,
  exists z, nth_error (split_go f sep s cur) 0 = Some (cur ++ z).
Proof.
  intros sep f. induction f as [| f IH]; intros s cur; cbn [split_go].
  - exists s. reflexivity.
  - destruct s as [| c s]; [exists ""; rewrite str_app_nil; reflexivity |].
    destruct (starts_with sep (String c s)); [exists ""; rewrite str_app_nil; reflexivity |].
    destruct (IH s (cur ++ String c "")) as (z & Hz). exists (String c z).
    rewrite Hz, str_app_assoc. reflexivity.
Qed.

Lemma no_amp_nowhere : forall p y, has_char "&" p = false -> starts_nowhere_in "&" p y = true.
Proof.
  induction p as [| c p IH]; intros y H; [reflexivity |].
  cbn [has_char] in H. apply orb_false_iff in H as [Hc H].
  change (negb (starts_with "&" (String c (p ++ y))) && starts_nowhere_in "&" p y = true).
  change (starts_with "&" (String c (p ++ y))) with (Ascii.eqb "&" c && true).
  rewrite Hc. exact (IH y H).
Qed.

Lemma truthy_page_url (pre rest : string) : truthy (JStr (pre ++ "page=" ++ rest)) = true.
Proof. destruct pre; reflexivity. Qed.

Ltac str_len_tac :=
  rewrite ?str_length_app; cbn [String.length]; rewrite ?str_length_app;
  repeat match goal with |- context [pred ?x] => rewrite <- (Nat.sub_1_r x) end; lia.

Lemma split_go_amp_head : forall f r cur, 0 < f ->
  exists z, nth_error (split_go f "page=" (String "&" r) cur) 0 = Some (cur ++ String "&" z).
Proof.
  intros [| f] r cur Hf; [lia |]. cbn [split_go].
  change (starts_with "page=" (String "&" r)) with false. cbv iota.
  destruct (split_go_head "page=" f r (cur ++ String "&" "")) as (z & Hz).
  exists z. rewrite Hz, str_app_assoc. reflexivity.
Qed.

Lemma page_segment : forall pre p tail,
  starts_nowhere_in "page=" pre ("page=" ++ p ++ tail) = true ->
  starts_nowhere_in "page=" p tail = true ->
  (tail = "" \/ exists r, tail = String "&" r) ->
  exists z, nth_error (py_split "page=" (pre ++ "page=" ++ p ++ tail)) 1 = Some (p ++ z)
            /\ (z = "" \/ exists r, z = String "&" r).
Proof.
  intros pre p tail Hpre Hp Htail. unfold py_split.
  rewrite split_go_skip by (try exact Hpre; str_len_tac).
  rewrite split_go_sep by (try discriminate; str_len_tac).
  cbn [nth_error].
  rewrite split_go_skip by (try exact Hp; str_len_tac). cbn [append].
  destruct Htail as [-> | (r & ->)].
  - rewrite split_go_end by str_len_tac. exists "". rewrite str_app_nil.
    split; [reflexivity | left; reflexivity].
  - destruct (split_go_amp_head (pred (S (String.length (pre ++ "page=" ++ p ++ String "&" r))
        - String.length pre) - String.length p) r p) as (z & Hz); [str_len_tac |].
    exists (String "&" z). split; [exact Hz | right; exists z; reflexivity].
Qed.

Lemma page_value : forall p z, has_char "&" p = false ->
  (z = "" \/ exists r, z = String "&" r) ->
  nth_error (py_split "&" (p ++ z)) 0 = Some p.
Proof.
  intros p z Hamp Hz. unfold py_split.
  destruct Hz as [-> | (r & ->)].
  - rewrite split_go_skip by (try (apply no_amp_nowhere; exact Hamp); str_len_tac).
    cbn [append]. rewrite split_go_end by str_len_tac. reflexivity.
  - rewrite split_go_skip by (try (apply no_amp_nowhere; exact Hamp); str_len_tac).
    cbn [append]. change (String "&" r) with ("&" ++ r).
    rewrite split_go_sep by (try discriminate; str_len_tac). reflexivity.
Qed.

(** [ZendeskClient.fetch_tickets] reads the next page number off [next_page]:
    for a URL [pre ++ "page=" ++ p ++ tail] in which the first [page=] is the
    one before [p], [p] holds no [&] and [tail] is empty or starts with [&],
    the page parameter of the next request is exactly [p]. A truthy
    [next_page] URL in which [page=] does not occur makes it raise. *)
Theorem zd_next_page_param :
  (forall data pre p tail,
     py_get data "next_page" JNull = Some (JStr (pre ++ "page=" ++ p ++ tail)) ->
     starts_nowhere_in "page=" pre ("page=" ++ p ++ tail) = true ->
     starts_nowhere_in "page=" p tail = true ->
     has_char "&" p = false ->
     (tail = "" \/ exists r, tail = String "&" r) ->
     zd_next data = Some (Some p))
  /\ (forall data url,
     py_get data "next_page" JNull = Some (JStr url) -> url <> "" ->
     starts_nowhere_in "page=" url "" = true ->
     zd_next data = None).
Proof.
  split.
  - intros data pre p tail Hg Hpre Hp Hamp Htail.
    unfold zd_next. rewrite Hg, truthy_page_url. cbv beta iota delta [negb].
    destruct (page_segment pre p tail Hpre Hp Htail) as (z & Hz & Hzf).
    rewrite Hz. cbv beta iota. rewrite (page_value p z Hamp Hzf). reflexivity.
  - intros data url Hg Hne Hn.
    assert (Ht : truthy (JStr url) = true) by (destruct url; [congruence | reflexivity]).
    assert (E : split_go (S (String.length url)) "page=" url "" = [url]).
    { rewrite <- (str_app_nil url) at 2.
      rewrite split_go_skip by (try exact Hn; rewrite str_app_nil; lia).
      rewrite split_go_end by lia. reflexivity. }
    unfold zd_next. rewrite Hg, Ht. cbv beta iota delta [negb].
    unfold py_split. rewrite E. reflexivity.
Qed.

Lemma zd_next_page_param_witness :
  zd_next (JObj [("next_page", JStr "https://acme.zendesk.com/api/v2/search.json?page=2&query=type%3Aticket")])
    = Some (Some "2")
  /\ zd_next (JObj [("next_page", JStr "https://acme.zendesk.com/api/v2/search.json?cursor=2")]) = None.
Proof.
  split.
  - apply (proj1 zd_next_page_param _ "https://acme.zendesk.com/api/v2/search.json?" "2" "&query=type%3Aticket");
      [reflexivity | reflexivity | reflexivity | reflexivity | right; eexists; reflexivity].
  - apply (proj2 zd_next_page_param _ "https://acme.zendesk.com/api/v2/search.json?cursor=2");
      [reflexivity | discriminate | reflexivity].
Defined.

(** ** Rate-limit handling *)



(** ** The token refresh of the Google Play client *)

(** [_refresh_access_token] followed by the header update posts to the token
    endpoint exactly once and sends no review request. It changes the
    [Authorization] header only when the reply is not an error status and
    carries a truthy [access_token], and then sets it to [Bearer] and that
    token; on every failure the header keeps its old value. *)
Theorem gp_refresh_effect : forall st ok st',
  gp_refresh st = (ok, st') ->
  trace st' = app (trace st) [ERefresh]
  /\ get_replies st' = get_replies st
  /\ token_replies st' = tl (token_replies st)
  /\ match ok with
     | None => authorization st' = authorization st
     | Some _ => exists r data tok,
         hd_error (token_replies st) = Some (Some r) /\ raise_for_status r = Some data
         /\ py_get data "access_token" JNull = Some tok /\ truthy tok = true
         /\ authorization st' = "Bearer " ++ py_str tok
     end.
Proof.
  intros [g t a tr] ok st' H. unfold gp_refresh in H. cbn [token_replies trace get_replies authorization] in *.
  destruct t as [| [r |] rs]; cbn [hd_error tl].
  - injection H as <- <-. cbn. auto.
  - destruct (raise_for_status r) as [data |] eqn:E1; [| injection H as <- <-; cbn; auto].
    destruct (py_get data "access_token" JNull) as [tok |] eqn:E2; [| injection H as <- <-; cbn; auto].
    destruct (truthy tok) eqn:E3; [| injection H as <- <-; cbn; auto].
    injection H as <- <-. cbn. repeat split. exists r, data, tok. auto.
  - injection H as <- <-. cbn. auto.
Qed.

Lemma gp_refresh_effect_witness :
  authorization (snd (gp_refresh {| get_replies := []; authorization := "Bearer old"; trace := [];
     token_replies := [Some {| status_code := 200; body := JObj [("access_token", JStr "")] |}] |}))
  = "Bearer old".
Proof.
  exact (proj2 (proj2 (proj2 (gp_refresh_effect {| get_replies := []; authorization := "Bearer old"; trace := [];
     token_replies := [Some {| status_code := 200; body := JObj [("access_token", JStr "")] |}] |}
     None _ eq_refl)))).
Defined.

(** ** Comments of a ticket *)

Lemma map_opt_Forall2 {A B} (f : A -> option B) (l : list A) (ys : list B) :
  map_opt f l = Some ys -> Forall2 (fun x y => f x = Some y) l ys.
Proof.
  revert ys. induction l as [| x r IH]; intros ys H; simpl in H.
  - injection H as <-. constructor.
  - destruct (f x) as [y |] eqn:Ef; [| discriminate H].
    destruct (map_opt f r) as [ys' |] eqn:Er; [| discriminate H].
    injection H as <-. constructor; [exact Ef | apply IH; reflexivity].
Qed.

Lemma normalize_comment_tags : forall tid c r,
  normalize_comment tid c = Some r ->
  assoc "entity_id" r = Some (PJ tid) /\ assoc "entity_type" r = Some (pstr "ticket").
Proof.
  intros tid c r H. unfold normalize_comment in H. unfold_opt H.
  cbn -[py_filter_keys]. split; reflexivity.
Qed.

(** [ZendeskClient.fetch_comments ticket_id] turns the [comments] list of the
    response into one record per comment, in order, each tagged with entity
    type [ticket] and the [ticket_id] it was called with; a response without
    a [comments] key gives no record. *)
Theorem fetch_comments_per_comment :
  (forall tid data recs, fetch_comments tid data = Some recs ->
     exists cs l, py_get data "comments" (JList []) = Some cs /\ py_iter cs = Some l
       /\ Forall2 (fun c r => normalize_comment tid c = Some r) l recs
       /\ Forall (fun r => assoc "entity_id" r = Some (PJ tid)
                          /\ assoc "entity_type" r = Some (pstr "ticket")) recs)
  /\ (forall tid kvs, assoc "comments" kvs = None -> fetch_comments tid (JObj kvs) = Some []).
Proof.
  split.
  - intros tid data recs H. unfold fetch_comments in H.
    destruct (py_get data "comments" (JList [])) as [cs |] eqn:E1; [| discriminate H].
    destruct (py_iter cs) as [l |] eqn:E2; [| discriminate H].
    exists cs, l. split; [reflexivity |]. split; [exact E2 |]. split.
    + apply map_opt_Forall2. exact H.
    + apply map_opt_from in H. eapply Forall_impl; [| exact H].
      intros r (c & Hc). exact (normalize_comment_tags tid c r Hc).
  - intros tid kvs H. unfold fetch_comments. cbn [py_get]. rewrite H. reflexivity.
Qed.

Lemma fetch_comments_per_comment_witness :
  Forall2 (fun c r => normalize_comment (JNum 7) c = Some r)
    [JObj [("id", JNum 1); ("author_id", JNum 9)]; JObj [("id", JNum 2); ("author_id", JNum 9)]]
    (match fetch_comments (JNum 7) (JObj [("comments", JList
       [JObj [("id", JNum 1); ("author_id", JNum 9)]; JObj [("id", JNum 2); ("author_id", JNum 9)]])])
     with Some recs => recs | None => [] end).
Proof.
  destruct (proj1 fetch_comments_per_comment (JNum 7) (JObj [("comments", JList
       [JObj [("id", JNum 1); ("author_id", JNum 9)]; JObj [("id", JNum 2); ("author_id", JNum 9)]])])
       _ eq_refl) as (cs & l & Hcs & Hl & H2 & _).
  injection Hcs as <-. injection Hl as <-. exact H2.
Defined.

(** ** Pagination and time stamps of [GooglePlayClient.fetch_reviews] *)

Lemma normalize_review_stamp : forall pkg now r x,
  normalize_review pkg now r = Some x -> assoc "created_at" x = Some (pstr now).
Proof.
  intros pkg now r x H. unfold normalize_review in H. unfold_opt H.
  cbn -[py_filter_keys py_setitem]. reflexivity.
Qed.

Lemma gp_page_go_stamps : forall pkg clock l k recs,
  gp_page_go pkg clock k l = Some recs ->
  List.length recs = List.length l
  /\ forall i x, nth_error recs i = Some x -> assoc "created_at" x = Some (pstr (clock (k + i))).
Proof.
  intros pkg clock l. induction l as [| r rs IH]; intros k recs H; cbn [gp_page_go] in H.
  - injection H as <-. split; [reflexivity |]. intros [| i] x Hx; discriminate Hx.
  - destruct (normalize_review pkg (clock k) r) as [x |] eqn:Ex; [| discriminate H].
    destruct (gp_page_go pkg clock (S k) rs) as [xs |] eqn:Exs; [| discriminate H].
    injection H as <-. destruct (IH (S k) xs Exs) as [Hl Hs].
    split; [cbn; rewrite Hl; reflexivity |].
    intros [| i] y Hy; cbn [nth_error] in Hy.
    + injection Hy as <-. rewrite Nat.add_0_r. exact (normalize_review_stamp _ _ _ _ Ex).
    + rewrite (Hs i y Hy). do 3 f_equal. lia.
Qed.

(** Every review [fetch_reviews] returns is stamped with the time of the
    [time.gmtime()] call made for it: the [i]-th review of the run gets the
    [i]-th clock reading, whatever dates the review itself carries. *)
Theorem fetch_reviews_created_at_is_fetch_time : forall pkg clock pages recs rest reqs,
  fetch_reviews pkg clock pages = Some (recs, rest, reqs) ->
  forall i x, nth_error recs i = Some x -> assoc "created_at" x = Some (pstr (clock i)).
Proof.
  intros pkg clock pages. unfold fetch_reviews.
  assert (G : forall k token recs rest reqs,
    gp_reviews_paged pkg clock k token pages = Some (recs, rest, reqs) ->
    forall i x, nth_error recs i = Some x -> assoc "created_at" x = Some (pstr (clock (k + i))));
  [| intros recs rest reqs H i x Hx; exact (G 0 JNull recs rest reqs H i x Hx)].
  induction pages as [| data more IH]; intros k token recs rest reqs H i x Hx;
    cbn [gp_reviews_paged] in H; [discriminate H |].
  unfold gp_page in H.
  destruct (py_get data "reviews" (JList [])) as [rs |]; [| discriminate H].
  destruct (py_iter rs) as [l |]; [| discriminate H].
  destruct (gp_page_go pkg clock k l) as [page |] eqn:Ep; [| discriminate H].
  destruct (gp_page_go_stamps pkg clock l k page Ep) as [_ Hs].
  destruct (gp_next_token data) as [tok |]; [| discriminate H].
  destruct (truthy tok).
  - destruct (gp_reviews_paged pkg clock (k + List.length page) tok more)
      as [[[recs' rest'] reqs'] |] eqn:Er; [| discriminate H].
    injection H as <- _ _.
    destruct (Nat.lt_ge_cases i (List.length page)) as [Hi | Hi].
    + rewrite nth_error_app1 in Hx by exact Hi. exact (Hs i x Hx).
    + rewrite nth_error_app2 in Hx by exact Hi.
      rewrite (IH _ _ _ _ _ Er _ _ Hx). do 3 f_equal. lia.
  - injection H as <- _ _. exact (Hs i x Hx).
Qed.

Lemma fetch_reviews_created_at_is_fetch_time_witness :
  assoc "created_at" (nth 1 (match fetch_reviews "com.acme.app"
      (fun n => if Nat.eqb n 0 then "2026-10-19T10:00:00Z" else "2026-10-19T10:00:01Z")
      [JObj [("reviews", JList [JObj [("reviewId", JStr "r1")]; JObj [("reviewId", JStr "r2")]])]]
    with Some (recs, _, _) => recs | None => [] end) [])
  = Some (pstr "2026-10-19T10:00:01Z").
Proof.
  apply (fetch_reviews_created_at_is_fetch_time "com.acme.app"
      (fun n => if Nat.eqb n 0 then "2026-10-19T10:00:00Z" else "2026-10-19T10:00:01Z")
      [JObj [("reviews", JList [JObj [("reviewId", JStr "r1")]; JObj [("reviewId", JStr "r2")]])]]
      _ [] [None] eq_refl 1).
  reflexivity.
Defined.

(** The loop of [GooglePlayClient.fetch_reviews] consumes a prefix [used] of
    the pages, one request per page. The first request carries the starting
    token only if it is truthy; each page's [tokenPagination.nextPageToken],
    when truthy, is the token of the next request, and the loop stops right
    after the first page whose token is missing or falsy, leaving the later
    pages unread. *)
Theorem fetch_reviews_token_chain : forall pkg clock pages k token recs rest reqs,
  gp_reviews_paged pkg clock k token pages = Some (recs, rest, reqs) ->
  exists used, pages = app used rest /\ List.length reqs = List.length used
    /\ hd_error reqs = Some (if truthy token then Some token else None)
    /\ forall i d, nth_error used i = Some d ->
         exists t, gp_next_token d = Some t
           /\ ((truthy t = true /\ nth_error reqs (S i) = Some (Some t))
               \/ (truthy t = false /\ S i = List.length used)).
Proof.
  intros pkg clock pages. induction pages as [| data more IH];
    intros k token recs rest reqs H; cbn [gp_reviews_paged] in H; [discriminate H |].
  destruct (gp_page pkg clock k data) as [page |]; [| discriminate H].
  destruct (gp_next_token data) as [tok |] eqn:Et; [| discriminate H].
  destruct (truthy tok) eqn:Ett.
  - destruct (gp_reviews_paged pkg clock (k + List.length page) tok more)
      as [[[recs' rest'] reqs'] |] eqn:Er; [| discriminate H].
    injection H as _ <- <-.
    destruct (IH _ _ _ _ _ Er) as (used & Hu & Hl & Hh & Hn).
    exists (data :: used). split; [rewrite Hu; reflexivity |].
    split; [cbn; rewrite Hl; reflexivity |]. split; [reflexivity |].
    intros [| i] d Hd; cbn [nth_error] in Hd.
    + injection Hd as <-. exists tok. split; [exact Et |]. left. split; [exact Ett |].
      cbn [nth_error]. destruct reqs' as [| q reqs'']; cbn in Hh; [discriminate Hh |].
      rewrite Ett in Hh. exact Hh.
    + destruct (Hn i d Hd) as (t & Ht & [[Ht1 Ht2] | [Ht1 Ht2]]); exists t; split; try exact Ht.
      * left. split; [exact Ht1 | exact Ht2].
      * right. split; [exact Ht1 | cbn; rewrite Ht2; reflexivity].
  - injection H as _ <- <-. exists [data]. split; [reflexivity |].
    split; [reflexivity |]. split; [reflexivity |].
    intros [| i] d Hd; cbn [nth_error] in Hd.
    + injection Hd as <-. exists tok. split; [exact Et |]. right. split; [exact Ett | reflexivity].
    + destruct i; discriminate Hd.
Qed.

Lemma fetch_reviews_token_chain_witness :
  exists used, [JObj [("tokenPagination", JObj [("nextPageToken", JStr "t2")])];
                JObj [("reviews", JList [])]; JObj []]
               = app used [JObj []] /\ List.length [None; Some (JStr "t2")] = List.length used
    /\ hd_error [None; Some (JStr "t2")] = Some None
    /\ forall i d, nth_error used i = Some d ->
         exists t, gp_next_token d = Some t
           /\ ((truthy t = true /\ nth_error [None; Some (JStr "t2")] (S i) = Some (Some t))
               \/ (truthy t = false /\ S i = List.length used)).
Proof.
  exact (fetch_reviews_token_chain "com.acme.app" (fun _ => "2026-10-19T10:00:00Z")
    [JObj [("tokenPagination", JObj [("nextPageToken", JStr "t2")])];
     JObj [("reviews", JList [])]; JObj []] 0 JNull [] [JObj []] [None; Some (JStr "t2")] eq_refl).
Defined.

(** ** The Zendesk tables of [src/storage/database.py] and [src/database.py] *)

Lemma in_upsert_all {R} (same_key : R -> R -> bool) : forall rows tbl x,
  In x (upsert_all same_key rows tbl) -> In x tbl \/ In x rows.
Proof.
  induction rows as [| r rs IH]; intros tbl x H; cbn [upsert_all] in H; [left; exact H |].
  destruct (IH _ _ H) as [H1 | H1]; [| right; right; exact H1].
  unfold upsert in H1. apply in_app_iff in H1 as [H1 | [H1 | []]].
  - apply filter_In in H1 as [H1 _]. left. exact H1.
  - right. left. exact H1.
Qed.

Lemma in_somes {A} (l : list (option A)) (x : A) : In x (somes l) -> In (Some x) l.
Proof.
  unfold somes. intros H. apply in_flat_map in H as ([y |] & Hy & Hx); [| destruct Hx].
  destruct Hx as [<- | []]. exact Hy.
Qed.

Lemma map_opt_in {A B} (f : A -> option B) : forall l ys y,
  map_opt f l = Some ys -> In y ys -> exists x, In x l /\ f x = Some y.
Proof.
  induction l as [| x r IH]; intros ys y H Hy; cbn [map_opt] in H.
  - injection H as <-. destruct Hy.
  - destruct (f x) as [z |] eqn:Ef; [| discriminate H].
    destruct (map_opt f r) as [zs |] eqn:Er; [| discriminate H].
    injection H as <-. destruct Hy as [<- | Hy].
    + exists x. split; [left; reflexivity | exact Ef].
    + destruct (IH zs y eq_refl Hy) as (x' & Hx' & Hf). exists x'. split; [right; exact Hx' | exact Hf].
Qed.

Lemma ticket_meta_row_some : forall tid f row,
  ticket_meta_row tid f = Some (Some row) ->
  exists fid v, py_get f "id" JNull = Some fid /\ py_get f "value" JNull = Some v
    /\ fid <> JNull /\ v <> JNull
    /\ row = [JStr "ticket"; tid; JStr (py_str fid); JStr (py_str v)].
Proof.
  intros tid f row. unfold ticket_meta_row.
  destruct (py_get f "id" JNull) as [fid |]; [| discriminate].
  destruct (py_get f "value" JNull) as [v |]; [| discriminate].
  intros H. exists fid, v.
  destruct fid; destruct v; cbn in H; try discriminate H; injection H as <-;
    repeat split; try reflexivity; discriminate.
Qed.

Lemma store_ticket_one_rows : forall db t d,
  store_ticket_one db t = Some d ->
  users_t d = users_t db
  /\ forall row, In row (zendesk_metadata_t d) -> In row (zendesk_metadata_t db) \/
       exists tid fields fs f fid v, py_getitem t "id" = Some tid
         /\ py_get t "metadata" (JList []) = Some fields /\ py_iter fields = Some fs /\ In f fs
         /\ py_get f "id" JNull = Some fid /\ py_get f "value" JNull = Some v
         /\ fid <> JNull /\ v <> JNull
         /\ row = [JStr "ticket"; tid; JStr (py_str fid); JStr (py_str v)].
Proof.
  intros db t d H. unfold store_ticket_one in H.
  destruct (py_getitem t "id") as [tid |] eqn:E1; [| discriminate H].
  destruct (py_get t "subject" (JStr "")) as [subject |]; [| discriminate H].
  destruct (py_get t "status" (JStr "")) as [status |]; [| discriminate H].
  destruct (py_get t "created_at" (JStr "")) as [created |]; [| discriminate H].
  destruct (if forallb bindable [tid; subject; status; created] then int_pk tid else None)
    as [k |]; [| discriminate H].
  destruct (py_get t "metadata" (JList [])) as [fields |] eqn:E2; [| discriminate H].
  destruct (py_iter fields) as [fs |] eqn:E3; [| discriminate H].
  destruct (map_opt (ticket_meta_row tid) fs) as [rows |] eqn:E4; [| discriminate H].
  injection H as <-. cbn [users_t zendesk_metadata_t]. split; [reflexivity |].
  intros row Hr. apply in_upsert_all in Hr as [Hr | Hr]; [left; exact Hr | right].
  apply in_somes in Hr. destruct (map_opt_in _ _ _ _ E4 Hr) as (f & Hf & Hrow).
  destruct (ticket_meta_row_some _ _ _ Hrow) as (fid & v & Hfid & Hv & Hn1 & Hn2 & ->).
  exists tid, fields, fs, f, fid, v. repeat split; assumption.
Qed.

(** [storage.Database.store_tickets] leaves the [users] table alone and
    writes a [zendesk_metadata] row only for a metadata field whose [id] and
    [value] are both present and not [None]; every such row is
    [("ticket", ticket["id"], str(id), str(value))] of one of the stored
    tickets. *)
Theorem store_tickets_metadata_rows : forall tickets db db',
  store_tickets db tickets = Some db' ->
  users_t db' = users_t db
  /\ forall row, In row (zendesk_metadata_t db') -> In row (zendesk_metadata_t db) \/
       exists t tid fields fs f fid v, In t tickets /\ py_getitem t "id" = Some tid
         /\ py_get t "metadata" (JList []) = Some fields /\ py_iter fields = Some fs /\ In f fs
         /\ py_get f "id" JNull = Some fid /\ py_get f "value" JNull = Some v
         /\ fid <> JNull /\ v <> JNull
         /\ row = [JStr "ticket"; tid; JStr (py_str fid); JStr (py_str v)].
Proof.
  induction tickets as [| t ts IH]; intros db db' H; cbn [store_tickets] in H.
  - injection H as <-. split; [reflexivity | intros row Hr; left; exact Hr].
  - destruct (store_ticket_one db t) as [d |] eqn:E; [| discriminate H].
    destruct (store_ticket_one_rows db t d E) as [Hu1 Hm1].
    destruct (IH d db' H) as [Hu2 Hm2].
    split; [rewrite Hu2; exact Hu1 |].
    intros row Hr. destruct (Hm2 row Hr) as [Hd | Hd].
    + destruct (Hm1 row Hd) as [Hdb | (tid & fields & fs & f & fid & v & Hx)];
        [left; exact Hdb | right].
      exists t, tid, fields, fs, f, fid, v. split; [left; reflexivity | exact Hx].
    + right. destruct Hd as (t' & tid & fields & fs & f & fid & v & Ht' & Hx).
      exists t', tid, fields, fs, f, fid, v. split; [right; exact Ht' | exact Hx].
Qed.

Lemma store_tickets_metadata_rows_witness :
  In [JStr "ticket"; JNum 42; JStr "360002"; JStr "vip"] [] \/
  exists t tid fields fs f fid v,
    In t [JObj [("id", JNum 42); ("metadata", JList [JObj [("id", JNum 360001); ("value", JNull)];
                                                     JObj [("id", JNum 360002); ("value", JStr "vip")]])]]
    /\ py_getitem t "id" = Some tid
    /\ py_get t "metadata" (JList []) = Some fields /\ py_iter fields = Some fs /\ In f fs
    /\ py_get f "id" JNull = Some fid /\ py_get f "value" JNull = Some v
    /\ fid <> JNull /\ v <> JNull
    /\ [JStr "ticket"; JNum 42; JStr "360002"; JStr "vip"]
       = [JStr "ticket"; tid; JStr (py_str fid); JStr (py_str v)].
Proof.
  exact (proj2 (store_tickets_metadata_rows
    [JObj [("id", JNum 42); ("metadata", JList [JObj [("id", JNum 360001); ("value", JNull)];
                                               JObj [("id", JNum 360002); ("value", JStr "vip")]])]]
    {| tickets_t := []; zcomments_t := []; zendesk_metadata_t := []; users_t := [] |} _ eq_refl)
    [JStr "ticket"; JNum 42; JStr "360002"; JStr "vip"] ltac:(vm_compute; left; reflexivity)).
Defined.

Lemma fold_max_ge : forall l a x, In x (a :: l) -> (x <= fold_right Z.max a l)%Z.
Proof.
  induction l as [| b l IH]; intros a x H; cbn [fold_right].
  - destruct H as [<- | []]. lia.
  - destruct H as [<- | [<- | H]].
    + pose proof (IH a a (or_introl eq_refl)). lia.
    + lia.
    + pose proof (IH a x (or_intror H)). lia.
Qed.

Lemma fresh_rowid_gt : forall tbl r, In r tbl -> (fst r < fresh_rowid tbl)%Z.
Proof.
  intros [| r0 rs] r H; [destruct H |]. cbn [fresh_rowid].
  assert (Hin : In (fst r) (fst r0 :: map fst rs))
    by (destruct H as [<- | H]; [left; reflexivity | right; apply in_map; exact H]).
  pose proof (fold_max_ge _ _ _ Hin). lia.
Qed.

Lemma filter_all {A} (p : A -> bool) : forall l, (forall x, In x l -> p x = true) -> filter p l = l.
Proof.
  induction l as [| x l IH]; intros H; cbn [filter]; [reflexivity |].
  rewrite (H x (or_introl eq_refl)), IH; [reflexivity |]. intros y Hy. apply H. right. exact Hy.
Qed.

Lemma filter_twice {A} (p : A -> bool) : forall l, filter p (filter p l) = filter p l.
Proof.
  induction l as [| x l IH]; cbn [filter]; [reflexivity |].
  destruct (p x) eqn:E; cbn [filter]; [rewrite E, IH; reflexivity | exact IH].
Qed.

Lemma fold_max_shift : forall l x a,
  fold_right Z.max (Z.max x a) l = Z.max x (fold_right Z.max a l).
Proof. induction l as [| b l IH]; intros x a; cbn [fold_right]; [reflexivity | rewrite IH; lia]. Qed.

Lemma fresh_rowid_snoc : forall tbl cols,
  fresh_rowid (app tbl [(fresh_rowid tbl, cols)]) = (fresh_rowid tbl + 1)%Z.
Proof.
  intros [| r rs] cols; [reflexivity |].
  cbn [app fresh_rowid]. rewrite map_app, fold_right_app. cbn [map fst fold_right].
  rewrite fold_max_shift. lia.
Qed.

Lemma rowid_upsert_twice : forall k cols tbl,
  rowid_upsert k cols (rowid_upsert k cols tbl)
  = match k with
    | Some z => rowid_upsert (Some z) cols tbl
    | None => app tbl [(fresh_rowid tbl, cols); ((fresh_rowid tbl + 1)%Z, cols)]
    end.
Proof.
  intros [z |] cols tbl.
  - unfold rowid_upsert. rewrite filter_app, filter_twice. cbn [filter fst].
    rewrite Z.eqb_refl. cbn [negb]. rewrite app_nil_r. reflexivity.
  - assert (Hin : rowid_upsert None cols tbl = app tbl [(fresh_rowid tbl, cols)]).
    { unfold rowid_upsert. rewrite filter_all; [reflexivity |].
      intros r Hr. apply negb_true_iff, Z.eqb_neq. pose proof (fresh_rowid_gt tbl r Hr). lia. }
    rewrite Hin. unfold rowid_upsert at 1. rewrite fresh_rowid_snoc.
    rewrite filter_all; [rewrite <- app_assoc; reflexivity |].
    intros r Hr. apply negb_true_iff, Z.eqb_neq. apply in_app_iff in Hr as [Hr | [<- | []]].
    + pose proof (fresh_rowid_gt tbl r Hr). lia.
    + cbn [fst]. lia.
Qed.

(** Storing the same user twice, with [storage.Database.store_users] or
    with two calls of [database.Database.store_user]: a user with an id
    leaves one row, as after one store, while a user whose [id] is missing or
    [None] gets a fresh rowid each time, so the table holds two copies.  The
    rowids in use are taken below [2^63 - 2], where SQLite's fresh rowid is
    one more than the largest. *)
Theorem store_user_twice : forall u k cols,
  user_row u = Some (k, cols) ->
  (forall db, Forall (fun r => (fst r <= 2 ^ 63 - 3)%Z) (users_t db) ->
     option_map users_t (store_users db [u; u])
     = Some (match k with
             | Some z => rowid_upsert (Some z) cols (users_t db)
             | None => app (users_t db) [(fresh_rowid (users_t db), cols);
                                         ((fresh_rowid (users_t db) + 1)%Z, cols)]
             end))
  /\ (forall cdb, Forall (fun r => (fst r <= 2 ^ 63 - 3)%Z) (cusers_t cdb) ->
     option_map cusers_t (let* d := store_user cdb u in store_user d u)
     = Some (match k with
             | Some z => rowid_upsert (Some z) cols (cusers_t cdb)
             | None => app (cusers_t cdb) [(fresh_rowid (cusers_t cdb), cols);
                                          ((fresh_rowid (cusers_t cdb) + 1)%Z, cols)]
             end))
  /\ (py_get u "id" JNull = Some JNull -> k = None).
Proof.
  intros u k cols H. split; [| split].
  - intros db _. cbn [store_users]. rewrite H.
    cbn [option_map users_t]. rewrite rowid_upsert_twice. reflexivity.
  - intros cdb _. unfold store_user. rewrite H. cbn [cusers_t option_map].
    rewrite rowid_upsert_twice. reflexivity.
  - intros Hid. unfold user_row in H. rewrite Hid in H.
    destruct (py_get u "name" (JStr "")); [| discriminate H].
    destruct (py_get u "email" (JStr "")); [| discriminate H].
    destruct (py_get u "role" (JStr "")); [| discriminate H].
    destruct (forallb bindable _); [| discriminate H].
    cbn in H. injection H as <- _. reflexivity.
Qed.

Lemma store_user_twice_witness :
  option_map users_t (store_users {| tickets_t := []; zcomments_t := []; zendesk_metadata_t := []; users_t := [] |}
    [JObj [("name", JStr "Ann")]; JObj [("name", JStr "Ann")]])
  = Some [(1%Z, [JStr "Ann"; JStr ""; JStr ""]); (2%Z, [JStr "Ann"; JStr ""; JStr ""])].
Proof.
  exact (proj1 (store_user_twice (JObj [("name", JStr "Ann")]) None [JStr "Ann"; JStr ""; JStr ""]
    eq_refl) {| tickets_t := []; zcomments_t := []; zendesk_metadata_t := []; users_t := [] |}
    (Forall_nil _)).
Defined.

Lemma int_pk_not_null : forall id k, int_pk id = Some k -> id <> JNull -> exists z, k = Some z.
Proof.
  intros id k H Hn. destruct id as [| b | z | s | l | kvs]; cbn [int_pk] in H; try discriminate H.
  - congruence.
  - injection H as <-. eexists; reflexivity.
  - injection H as <-. eexists; reflexivity.
  - destruct s as [| c r]; [discriminate H |].
    destruct (digits_val 0 (String c r)) as [z |]; [| discriminate H].
    destruct (in_int64 z); [| discriminate H].
    injection H as <-. eexists; reflexivity.
Qed.

Lemma store_comment_one_shape : forall db c d,
  store_comment_one db c = Some d ->
  exists id k cols mrows, py_getitem c "id" = Some id /\ int_pk id = Some k
    /\ forall db0, store_comment_one db0 c
         = Some {| comments_t := rowid_upsert k cols (comments_t db0);
                   metadata_t := app (metadata_t db0) mrows; cusers_t := cusers_t db0 |}.
Proof.
  intros db c d H. unfold store_comment_one in H.
  destruct (py_getitem c "id") as [id |] eqn:E1; [| discriminate H].
  destruct (py_getitem c "ticket_id") as [tk |] eqn:E2; [| discriminate H].
  destruct (py_getitem c "author_id") as [au |] eqn:E3; [| discriminate H].
  destruct (py_getitem c "body") as [bd |] eqn:E4; [| discriminate H].
  destruct (py_getitem c "created_at") as [ca |] eqn:E5; [| discriminate H].
  destruct (py_getitem c "public") as [pb |] eqn:E6; [| discriminate H].
  destruct (forallb bindable [id; tk; au; bd; ca; pb]) eqn:E7; [| discriminate H].
  destruct (int_pk id) as [k |] eqn:E8; [| discriminate H].
  destruct (py_getitem c "metadata") as [md |] eqn:E9; [| discriminate H].
  destruct (comment_meta_rows id md) as [mrows |] eqn:E10; [| discriminate H].
  exists id, k, [tk; au; bd; ca; pb], mrows. split; [first [reflexivity | exact E1] | split; [exact E8 |]].
  intros db0. unfold store_comment_one.
  rewrite E1, E2, E3, E4, E5, E6, E7, E8, E9, E10. reflexivity.
Qed.

(** [database.Database.store_comments] keeps one [comments] row per comment
    id but inserts metadata with a plain [INSERT] into a table without a
    key: storing a comment a second time leaves [comments] as after the
    first store and appends the same metadata rows once more. *)
Theorem store_comments_twice_duplicates_metadata : forall db c db1 id,
  store_comments db [c] = Some db1 -> py_getitem c "id" = Some id -> id <> JNull ->
  exists mrows, metadata_t db1 = app (metadata_t db) mrows
    /\ store_comments db [c; c]
       = Some {| comments_t := comments_t db1; metadata_t := app (metadata_t db1) mrows;
                 cusers_t := cusers_t db1 |}.
Proof.
  intros db c db1 id H Hid Hn. cbn [store_comments] in H.
  destruct (store_comment_one db c) as [d |] eqn:E; [| discriminate H].
  injection H as <-.
  destruct (store_comment_one_shape db c d E) as (id' & k & cols & mrows & Hid' & Hk & Hs).
  rewrite Hid in Hid'. injection Hid' as <-.
  destruct (int_pk_not_null id k Hk Hn) as (z & ->).
  rewrite Hs in E. injection E as <-.
  exists mrows. cbn [metadata_t comments_t cusers_t]. split; [reflexivity |].
  cbn [store_comments]. rewrite Hs. cbn [comments_t metadata_t cusers_t]. rewrite Hs.
  cbn [comments_t metadata_t cusers_t]. rewrite rowid_upsert_twice. reflexivity.
Qed.

Lemma store_comments_twice_duplicates_metadata_witness :
  exists mrows,
    metadata_t (match store_comments {| comments_t := []; metadata_t := []; cusers_t := [] |}
      [JObj [("id", JNum 5); ("ticket_id", JNum 42); ("author_id", JNum 7); ("body", JStr "Thanks");
             ("created_at", JStr "2024-05-01T10:00:00Z"); ("public", JBool true);
             ("metadata", JObj [("system", JObj [("client", JStr "web")])])]]
      with Some d => d | None => {| comments_t := []; metadata_t := []; cusers_t := [] |} end)
    = app [] mrows
    /\ store_comments {| comments_t := []; metadata_t := []; cusers_t := [] |}
      [JObj [("id", JNum 5); ("ticket_id", JNum 42); ("author_id", JNum 7); ("body", JStr "Thanks");
             ("created_at", JStr "2024-05-01T10:00:00Z"); ("public", JBool true);
             ("metadata", JObj [("system", JObj [("client", JStr "web")])])];
       JObj [("id", JNum 5); ("ticket_id", JNum 42); ("author_id", JNum 7); ("body", JStr "Thanks");
             ("created_at", JStr "2024-05-01T10:00:00Z"); ("public", JBool true);
             ("metadata", JObj [("system", JObj [("client", JStr "web")])])]]
    = Some {| comments_t := comments_t (match store_comments
                 {| comments_t := []; metadata_t := []; cusers_t := [] |}
      [JObj [("id", JNum 5); ("ticket_id", JNum 42); ("author_id", JNum 7); ("body", JStr "Thanks");
             ("created_at", JStr "2024-05-01T10:00:00Z"); ("public", JBool true);
             ("metadata", JObj [("system", JObj [("client", JStr "web")])])]]
      with Some d => d | None => {| comments_t := []; metadata_t := []; cusers_t := [] |} end);
              metadata_t := app (metadata_t (match store_comments
                 {| comments_t := []; metadata_t := []; cusers_t := [] |}
      [JObj [("id", JNum 5); ("ticket_id", JNum 42); ("author_id", JNum 7); ("body", JStr "Thanks");
             ("created_at", JStr "2024-05-01T10:00:00Z"); ("public", JBool true);
             ("metadata", JObj [("system", JObj [("client", JStr "web")])])]]
      with Some d => d | None => {| comments_t := []; metadata_t := []; cusers_t := [] |} end)) mrows;
              cusers_t := [] |}.
Proof.
  exact (store_comments_twice_duplicates_metadata
    {| comments_t := []; metadata_t := []; cusers_t := [] |}
    (JObj [("id", JNum 5); ("ticket_id", JNum 42); ("author_id", JNum 7); ("body", JStr "Thanks");
           ("created_at", JStr "2024-05-01T10:00:00Z"); ("public", JBool true);
           ("metadata", JObj [("system", JObj [("client", JStr "web")])])])
    _ (JNum 5) eq_refl eq_refl ltac:(discriminate)).
Defined.

Lemma upsert_all_keeps {R} (same_key : R -> R -> bool) : forall rows tbl x,
  (forall r, In r rows -> same_key x r = false) -> In x tbl -> In x (upsert_all same_key rows tbl).
Proof.
  induction rows as [| r rs IH]; intros tbl x Hk Hx; cbn [upsert_all]; [exact Hx |].
  apply IH; [intros r' Hr'; apply Hk; right; exact Hr' |].
  unfold upsert. apply in_app_iff. left. apply filter_In. split; [exact Hx |].
  rewrite (Hk r (or_introl eq_refl)). reflexivity.
Qed.

Lemma zmeta_key_ticket_comment : forall a b,
  nth 0 a JNull = JStr "ticket" -> nth 0 b JNull = JStr "comment" ->
  zmeta_key a b = false /\ zmeta_key b a = false.
Proof. intros a b Ha Hb. unfold zmeta_key. rewrite Ha, Hb. split; reflexivity. Qed.

Lemma zcomment_meta_rows_type : forall cid md rows,
  zcomment_meta_rows cid md = Some rows -> forall r, In r rows -> nth 0 r JNull = JStr "comment".
Proof.
  intros cid md rows H r Hr. unfold zcomment_meta_rows in H.
  destruct (py_items md) as [items |]; [| discriminate H]. injection H as <-.
  apply in_flat_map in Hr as (kv & _ & Hr).
  destruct (snd kv); try (destruct Hr as [<- | []]; reflexivity).
  apply in_map_iff in Hr as (skv & <- & _). reflexivity.
Qed.

Lemma store_zcomment_one_keeps : forall db c d,
  store_zcomment_one db c = Some d ->
  tickets_t d = tickets_t db /\ users_t d = users_t db
  /\ forall row, In row (zendesk_metadata_t db) -> nth 0 row JNull = JStr "ticket" ->
       In row (zendesk_metadata_t d).
Proof.
  intros db c d H. unfold store_zcomment_one in H.
  destruct (py_getitem c "id") as [id |]; [| discriminate H].
  destruct (py_getitem c "ticket_id") as [tk |]; [| discriminate H].
  destruct (py_getitem c "author_id") as [au |]; [| discriminate H].
  destruct (py_getitem c "body") as [bd |]; [| discriminate H].
  destruct (py_getitem c "created_at") as [ca |]; [| discriminate H].
  destruct (py_getitem c "public") as [pb |]; [| discriminate H].
  destruct (if forallb bindable [id; tk; au; bd; ca; pb] then int_pk id else None)
    as [k |]; [| discriminate H].
  destruct (py_get c "metadata" (JObj [])) as [md |]; [| discriminate H].
  destruct (zcomment_meta_rows id md) as [mrows |] eqn:Em; [| discriminate H].
  injection H as <-. cbn [tickets_t users_t zendesk_metadata_t].
  split; [reflexivity | split; [reflexivity |]].
  intros row Hr Ht. apply upsert_all_keeps; [| exact Hr].
  intros r Hin. exact (proj1 (zmeta_key_ticket_comment row r Ht
    (zcomment_meta_rows_type _ _ _ Em r Hin))).
Qed.

Lemma store_ticket_one_keeps : forall db t d,
  store_ticket_one db t = Some d ->
  zcomments_t d = zcomments_t db
  /\ forall row, In row (zendesk_metadata_t db) -> nth 0 row JNull = JStr "comment" ->
       In row (zendesk_metadata_t d).
Proof.
  intros db t d H. unfold store_ticket_one in H.
  destruct (py_getitem t "id") as [tid |]; [| discriminate H].
  destruct (py_get t "subject" (JStr "")) as [subject |]; [| discriminate H].
  destruct (py_get t "status" (JStr "")) as [status |]; [| discriminate H].
  destruct (py_get t "created_at" (JStr "")) as [created |]; [| discriminate H].
  destruct (if forallb bindable [tid; subject; status; created] then int_pk tid else None)
    as [k |]; [| discriminate H].
  destruct (py_get t "metadata" (JList [])) as [fields |]; [| discriminate H].
  destruct (py_iter fields) as [fs |]; [| discriminate H].
  destruct (map_opt (ticket_meta_row tid) fs) as [rows |] eqn:E4; [| discriminate H].
  injection H as <-. cbn [zcomments_t zendesk_metadata_t]. split; [reflexivity |].
  intros row Hr Hc. apply upsert_all_keeps; [| exact Hr].
  intros r Hin. apply in_somes in Hin.
  destruct (map_opt_in _ _ _ _ E4 Hin) as (f & _ & Hrow).
  destruct (ticket_meta_row_some _ _ _ Hrow) as (fid & v & _ & _ & _ & _ & ->).
  exact (proj2 (zmeta_key_ticket_comment [JStr "ticket"; tid; JStr (py_str fid); JStr (py_str v)]
    row eq_refl Hc)).
Qed.

(** Ticket and comment metadata share the [zendesk_metadata] table of
    [src/storage/database.py] without overwriting each other: storing
    comments keeps every ticket metadata row (and the [tickets] and [users]
    tables), and storing tickets keeps every comment metadata row (and the
    [comments] table), since the [entity_type] column of the key differs. *)
Theorem zendesk_metadata_no_cross_overwrite :
  (forall cs db db', store_zcomments db cs = Some db' ->
     tickets_t db' = tickets_t db /\ users_t db' = users_t db
     /\ forall row, In row (zendesk_metadata_t db) -> nth 0 row JNull = JStr "ticket" ->
          In row (zendesk_metadata_t db'))
  /\ (forall ts db db', store_tickets db ts = Some db' ->
     zcomments_t db' = zcomments_t db
     /\ forall row, In row (zendesk_metadata_t db) -> nth 0 row JNull = JStr "comment" ->
          In row (zendesk_metadata_t db')).
Proof.
  split.
  - induction cs as [| c cs IH]; intros db db' H; cbn [store_zcomments] in H.
    + injection H as <-. split; [reflexivity | split; [reflexivity | auto]].
    + destruct (store_zcomment_one db c) as [d |] eqn:E; [| discriminate H].
      destruct (store_zcomment_one_keeps db c d E) as (Ht1 & Hu1 & Hm1).
      destruct (IH d db' H) as (Ht2 & Hu2 & Hm2).
      split; [congruence | split; [congruence |]].
      intros row Hr Ht. apply Hm2; [apply Hm1 |]; assumption.
  - induction ts as [| t ts IH]; intros db db' H; cbn [store_tickets] in H.
    + injection H as <-. split; [reflexivity | auto].
    + destruct (store_ticket_one db t) as [d |] eqn:E; [| discriminate H].
      destruct (store_ticket_one_keeps db t d E) as (Hc1 & Hm1).
      destruct (IH d db' H) as (Hc2 & Hm2).
      split; [congruence |].
      intros row Hr Hc. apply Hm2; [apply Hm1 |]; assumption.
Qed.

Lemma zendesk_metadata_no_cross_overwrite_witness :
  In [JStr "ticket"; JNum 42; JStr "360002"; JStr "vip"]
    (zendesk_metadata_t (match store_zcomments
       {| tickets_t := []; zcomments_t := []; users_t := [];
          zendesk_metadata_t := [[JStr "ticket"; JNum 42; JStr "360002"; JStr "vip"]] |}
       [JObj [("id", JNum 42); ("ticket_id", JNum 42); ("author_id", JNum 7); ("body", JStr "Hi");
              ("created_at", JStr "2024-05-01T10:00:00Z"); ("public", JBool true);
              ("metadata", JObj [("360002", JStr "standard")])]]
     with Some d => d | None => {| tickets_t := []; zcomments_t := []; users_t := [];
                                   zendesk_metadata_t := [] |} end)).
Proof.
  exact (proj2 (proj2 (proj1 zendesk_metadata_no_cross_overwrite
    [JObj [("id", JNum 42); ("ticket_id", JNum 42); ("author_id", JNum 7); ("body", JStr "Hi");
           ("created_at", JStr "2024-05-01T10:00:00Z"); ("public", JBool true);
           ("metadata", JObj [("360002", JStr "standard")])]]
    {| tickets_t := []; zcomments_t := []; users_t := [];
       zendesk_metadata_t := [[JStr "ticket"; JNum 42; JStr "360002"; JStr "vip"]] |}
    _ eq_refl)) _ (or_introl eq_refl) eq_refl).
Defined.

(** ** The cursor of each request of the CRM and helpdesk loops *)

(** The loops of [HubSpotClient.fetch_contacts] (and of [fetch_companies]
    and [fetch_deals]) and of [ZendeskClient.fetch_tickets] consume a prefix
    [used] of the pages, one request per page, and stop right after the
    first page without a next-page marker. The request after a page carries
    that page's cursor: for the CRM loop [paging["next"]["after"]] only when
    it is truthy, so an empty or null [after] does not stop the loop but
    sends the next request without a cursor, like the first one; for the
    helpdesk loop the [page] parameter read off [next_page]. *)
Theorem paged_fetch_cursor_chain :
  (forall norm pages after recs rest reqs,
     hs_paged norm after pages = Some (recs, rest, reqs) ->
     exists used, pages = app used rest /\ List.length reqs = List.length used
       /\ hd_error reqs = Some (if truthy after then Some after else None)
       /\ forall i d, nth_error used i = Some d ->
            (exists a, hs_next d = Some (Some a)
               /\ nth_error reqs (S i) = Some (if truthy a then Some a else None))
            \/ (hs_next d = Some None /\ S i = List.length used))
  /\ (forall pages page recs rest reqs,
     zd_paged page pages = Some (recs, rest, reqs) ->
     exists used, pages = app used rest /\ List.length reqs = List.length used
       /\ hd_error reqs = Some page
       /\ forall i d, nth_error used i = Some d ->
            (exists p, zd_next d = Some (Some p) /\ nth_error reqs (S i) = Some (Some p))
            \/ (zd_next d = Some None /\ S i = List.length used)).
Proof.
  split.
  - intros norm pages. induction pages as [| data more IH];
      intros after recs rest reqs H; cbn [hs_paged] in H; [discriminate H |].
    destruct (hs_page norm data) as [page |]; [| discriminate H].
    destruct (hs_next data) as [[a |] |] eqn:En; [| | discriminate H].
    + destruct (hs_paged norm a more) as [[[recs' rest'] reqs'] |] eqn:Er; [| discriminate H].
      injection H as _ <- <-.
      destruct (IH _ _ _ _ Er) as (used & Hu & Hl & Hh & Hn).
      exists (data :: used). split; [rewrite Hu; reflexivity |].
      split; [cbn; rewrite Hl; reflexivity |]. split; [reflexivity |].
      intros [| i] d Hd; cbn [nth_error] in Hd.
      * injection Hd as <-. left. exists a. split; [exact En |].
        destruct reqs' as [| q reqs'']; cbn in Hh; [discriminate Hh | exact Hh].
      * destruct (Hn i d Hd) as [(a' & Ha1 & Ha2) | (Hd1 & Hd2)].
        -- left. exists a'. split; [exact Ha1 | exact Ha2].
        -- right. split; [exact Hd1 | cbn; rewrite Hd2; reflexivity].
    + injection H as _ <- <-. exists [data]. split; [reflexivity |].
      split; [reflexivity |]. split; [reflexivity |].
      intros [| i] d Hd; cbn [nth_error] in Hd.
      * injection Hd as <-. right. split; [exact En | reflexivity].
      * destruct i; discriminate Hd.
  - intros pages. induction pages as [| data more IH];
      intros page recs rest reqs H; cbn [zd_paged] in H; [discriminate H |].
    destruct (hs_page normalize_ticket data) as [pg |]; [| discriminate H].
    destruct (zd_next data) as [[p |] |] eqn:En; [| | discriminate H].
    + destruct (zd_paged (Some p) more) as [[[recs' rest'] reqs'] |] eqn:Er; [| discriminate H].
      injection H as _ <- <-.
      destruct (IH _ _ _ _ Er) as (used & Hu & Hl & Hh & Hn).
      exists (data :: used). split; [rewrite Hu; reflexivity |].
      split; [cbn; rewrite Hl; reflexivity |]. split; [reflexivity |].
      intros [| i] d Hd; cbn [nth_error] in Hd.
      * injection Hd as <-. left. exists p. split; [exact En |].
        destruct reqs' as [| q reqs'']; cbn in Hh; [discriminate Hh | exact Hh].
      * destruct (Hn i d Hd) as [(p' & Hp1 & Hp2) | (Hd1 & Hd2)].
        -- left. exists p'. split; [exact Hp1 | exact Hp2].
        -- right. split; [exact Hd1 | cbn; rewrite Hd2; reflexivity].
    + injection H as _ <- <-. exists [data]. split; [reflexivity |].
      split; [reflexivity |]. split; [reflexivity |].
      intros [| i] d Hd; cbn [nth_error] in Hd.
      * injection Hd as <-. right. split; [exact En | reflexivity].
      * destruct i; discriminate Hd.
Qed.

Lemma paged_fetch_cursor_chain_witness :
  exists used,
    [JObj [("results", JList []); ("paging", JObj [("next", JObj [("after", JStr "")])])];
     JObj [("results", JList [])]] = app used []
    /\ List.length [@None json; None] = List.length used
    /\ hd_error [@None json; None] = Some (if truthy JNull then Some JNull else None)
    /\ forall i d, nth_error used i = Some d ->
         (exists a, hs_next d = Some (Some a)
            /\ nth_error [@None json; None] (S i) = Some (if truthy a then Some a else None))
         \/ (hs_next d = Some None /\ S i = List.length used).
Proof.
  exact (proj1 paged_fetch_cursor_chain normalize_contact
    [JObj [("results", JList []); ("paging", JObj [("next", JObj [("after", JStr "")])])];
     JObj [("results", JList [])]] JNull [] [] [None; None] eq_refl).
Defined.
